(** * The reel-generation pipeline of essentially-sports-reels

    A shallow embedding of the route handler [POST] of the generate-video
    API (src/app/page.tsx, from line 230 on) and of the four functions it
    calls: [generateVideoScriptUsingGemini], [generateVoiceoverUsingGoogleTTS],
    [generateVideoFromRunwayML] (with [fetchVideoAsBuffer]) and
    [uploadToGCPStorage].

    The handler is asynchronous code that talks to four remote services and
    throws JavaScript exceptions.  It is embedded in a small monad that
    threads a [World] (the bucket and the chronological trace of calls that
    left the process) and returns a value, a thrown error, or the fact that
    the promise has not settled: the polling loop is still going round, or
    a callback it waits for is never run.  The remote services are a record
    of answer functions, [Backends]: what a test would mock. *)

From Stdlib Require Import ZArith Strings.Byte Ascii.
From stdpp Require Import base tactics option list gmap strings pretty.

Local Open Scope Z_scope.
Local Open Scope string_scope.
Local Open Scope list_scope.

(** ** Values exchanged with the outside *)

(** A JSON value, as [JSON.parse] gives it and [JSON.stringify] takes it:
    the request body of the route and the body it answers with.  A number
    is kept as the text [String(x)] prints it with ("200", "1.5", "1e+21"):
    the program tests numbers for zero, prints them and compares them with
    200, and never computes with them. *)
#[local] Unset Elimination Schemes.
Inductive JsonValue : Type :=
| JNull
| JBool (b : bool)
| JNumber (shown : string)
| JString (s : string)
| JArray (items : list JsonValue)
| JObject (members : list (string * JsonValue)).
#[local] Set Elimination Schemes.

(** A thrown value.  [Error message] is [new Error(message)], an object
    whose own properties are not enumerable.  [Thrown as_json] is any other
    value that [JSON.stringify] takes (a string, an object with enumerable
    properties), kept as what [JSON.stringify] makes of it; [None] is a
    value it leaves out. *)
Inductive Err : Type :=
| Error (message : string)
| Thrown (as_json : option JsonValue).

(** What an awaited promise of a remote call settles to. *)
Inductive Settled (A : Type) : Type :=
| Resolved (a : A)
| Rejected (e : Err).
Arguments Resolved {A} a.
Arguments Rejected {A} e.

(** [fileContent: any]: the script is a string, audio and video are buffers. *)
Inductive Content : Type :=
| Text (s : string)
| Bytes (b : list byte).

(** [generatedFileType: 'temp' | 'reel'] *)
Inductive Category : Type := Temp | Reel.

(** The two constants [const { sports, photo } = body]; [None] is
    undefined, the value of a member the body does not have. *)
Record Body : Type := { sports : option JsonValue; photo : option JsonValue }.

(** The part of node-fetch's response that the voiceover stage reads. *)
Record FetchResponse : Type :=
  { ok : bool; fetch_status : Z; statusText : string; text : string }.

(** A RunwayML task as [client.tasks.retrieve] returns it.  The status is
    kept as the string the loop compares; [output] is optional. *)
Record Task : Type := { status : string; output : option (list string) }.

(** How the body stream of an [https.get] response finishes: it emits
    'end', it emits 'error', or it emits neither. *)
Inductive StreamEnd : Type :=
| OnEnd
| OnError (err : Err)
| Stalls.

(** The response handed to the callback of [https.get]. *)
Record IncomingMessage : Type :=
  { statusCode : Z; chunks : list (list byte); finish : StreamEnd }.

(** What becomes of a call [https.get(url, callback)].  The call itself
    throws (a URL that does not parse, a protocol that is not https), or
    the callback is run on a response, or the request fails before any
    response: it then emits 'error', for which the code registers no
    listener, and the callback is never run. *)
Inductive ClientRequest : Type :=
| Refused (err : Err)
| Responded (response : IncomingMessage)
| NoResponse.

(** An object of the bucket. *)
Record StoredObject : Type :=
  { contentType : string; content : Content; public : bool }.

Definition stored (fileType : string) (fileContent : Content) (pub : bool) : StoredObject :=
  {| contentType := fileType; content := fileContent; public := pub |}.

(** Calls that leave the process, in the order they are made. *)
Inductive Event : Type :=
| EvGenerateContent (prompt : string)
| EvSave (filePath fileType : string) (fileContent : Content)
| EvMakePublic (filePath : string)
| EvFetch (url : string)
| EvSynthesizeSpeech (input : string)
| EvImageToVideo (promptImage : string)
| EvSetTimeout (ms : Z)
| EvTasksRetrieve (taskId : string)
| EvHttpsGet (url : string).

(** The remote services and the clock, as answer functions.  The answer of
    [tasks_retrieve] depends on how many times the task was retrieved
    before, so that a job can change status between two polls. *)
Record Backends : Type := {
  Date_now : Z;
  generateContent : string -> Settled (option string);
  fetch : string -> Settled FetchResponse;
  synthesizeSpeech : string -> Settled (option (list byte));
  imageToVideo_create : string -> Settled string;
  tasks_retrieve : string -> nat -> Settled Task;
  https_get : string -> ClientRequest;
  file_save : string -> string -> Content -> Settled unit;
  file_makePublic : string -> Settled unit
}.

(** ** The monad *)

Record World : Type := { store : gmap string StoredObject; trace : list Event }.

(** How far an asynchronous function got: it returned, it threw, or its
    promise has not settled. *)
Inductive Outcome (A : Type) : Type :=
| Ret (a : A)
| Throw (e : Err)
| Running.
Arguments Ret {A} a.
Arguments Throw {A} e.
Arguments Running {A}.

Definition M (A : Type) : Type := World -> Outcome A * World.

Definition ret {A} (a : A) : M A := fun w => (Ret a, w).
Definition throw {A} (e : Err) : M A := fun w => (Throw e, w).
Definition running {A} : M A := fun w => (Running, w).

Definition bind {A B} (m : M A) (k : A -> M B) : M B :=
  fun w =>
    match m w with
    | (Ret a, w') => k a w'
    | (Throw e, w') => (Throw e, w')
    | (Running, w') => (Running, w')
    end.

Declare Scope reel_scope.
Delimit Scope reel_scope with reel.
Notation "x <~ m ;; k" := (bind m (fun x => k))
  (at level 100, m at next level, right associativity) : reel_scope.
Notation "m ;;; k" := (bind m (fun _ => k))
  (at level 100, right associativity) : reel_scope.
Local Open Scope reel_scope.

(** [await p]: the value of a settled promise, or its rejection thrown. *)
Definition await {A} (p : Settled A) : M A :=
  match p with
  | Resolved a => ret a
  | Rejected e => throw e
  end.

Definition emit (e : Event) : M unit :=
  fun w => (Ret tt, {| store := store w; trace := trace w ++ [e] |}).

Definition modify_store (f : gmap string StoredObject -> gmap string StoredObject) : M unit :=
  fun w => (Ret tt, {| store := f (store w); trace := trace w |}).

(** JavaScript's [!s] on an optional string: undefined, null and the empty
    string are falsy. *)
Definition falsy (s : option string) : bool :=
  match s with
  | None => true
  | Some s => bool_decide (s = "")
  end.

(** ** JSON values in JavaScript *)

(** [!v] on a parsed value: undefined, null, false, zero and the empty
    string are falsy, every array and object is truthy. *)
Definition falsy_value (v : option JsonValue) : bool :=
  match v with
  | None | Some JNull => true
  | Some (JBool b) => negb b
  | Some (JNumber shown) => bool_decide (shown = "0")
  | Some (JString s) => bool_decide (s = "")
  | Some (JArray _) | Some (JObject _) => false
  end.

(** [String(v)]: an array is its elements joined by commas, with null
    elements left empty; an object is "[object Object]". *)
Fixpoint to_string (v : JsonValue) : string :=
  match v with
  | JNull => "null"
  | JBool b => if b then "true" else "false"
  | JNumber shown => shown
  | JString s => s
  | JArray items =>
      String.concat ","
        (List.map (fun item => match item with JNull => "" | _ => to_string item end) items)
  | JObject _ => "[object Object]"
  end.

(** A value inside a template literal. *)
Definition template (v : option JsonValue) : string :=
  match v with
  | None => "undefined"
  | Some v => to_string v
  end.

Fixpoint assoc (k : string) (members : list (string * JsonValue)) : option JsonValue :=
  match members with
  | [] => None
  | (k', v) :: rest => if String.eqb k' k then Some v else assoc k rest
  end.

(** [v.k] for a value that is not null and a name [k] that no prototype
    defines (sports, photo, status, data, scriptURL, ...): only an object
    can have it. *)
Definition member (k : string) (v : JsonValue) : option JsonValue :=
  match v with
  | JObject members => assoc k members
  | _ => None
  end.

(** ** Google Cloud Storage *)

(** [gcpFile.save(fileContent, { metadata: { contentType } })]: writes the
    object, replacing whatever the path held; the new object is not public
    until [makePublic]. *)
Definition gcpFile_save (B : Backends) (filePath fileType : string) (fileContent : Content) : M unit :=
  emit (EvSave filePath fileType fileContent) ;;;
  await (file_save B filePath fileType fileContent) ;;;
  modify_store (insert filePath (stored fileType fileContent false)).

Definition make_public (o : StoredObject) : StoredObject :=
  {| contentType := contentType o; content := content o; public := true |}.

(** [gcpFile.makePublic()] *)
Definition gcpFile_makePublic (B : Backends) (filePath : string) : M unit :=
  emit (EvMakePublic filePath) ;;;
  await (file_makePublic B filePath) ;;;
  modify_store (alter make_public filePath).

Definition bucketName : string := "sehban".

Definition directory_of (generatedFileType : Category) : string :=
  match generatedFileType with
  | Temp => "temp"
  | Reel => "reel"
  end.

Definition publicUrl_of (filePath : string) : string :=
  "https://storage.googleapis.com/" +:+ bucketName +:+ "/" +:+ filePath.

Definition uploadToGCPStorage (B : Backends) (fileName fileType : string)
    (fileContent : Content) (generatedFileType : Category) : M string :=
  if falsy (Some bucketName) then
    throw (Error "GCP_BUCKET_NAME environment variable is not set.")
  else
    let directory := directory_of generatedFileType in
    let filePath := directory +:+ "/" +:+ fileName in
    gcpFile_save B filePath fileType fileContent ;;;
    gcpFile_makePublic B filePath ;;;
    ret (publicUrl_of filePath).

(** ** Gemini: the script stage *)

Definition newline : string := String "010"%char "".

(** The template literal of [generateVideoScriptUsingGemini]; it spans two
    source lines, the second indented by six spaces. *)
Definition prompt_of (sports : string) : string :=
  "Write a creative and engaging short paragraph about " +:+ sports +:+
  " history in 100 characters. " +:+ newline +:+
  "      The tone should be energetic and fast-paced, suitable for a sports highlight reel. Do not use any special characters. Write a few lines only.".

Definition generateVideoScriptUsingGemini (B : Backends) (sports tempScriptName : string) : M string :=
  let prompt := prompt_of sports in
  emit (EvGenerateContent prompt) ;;;
  script <~ await (generateContent B prompt) ;;
  if falsy script then
    throw (Error "Failed to generate a script. The response is empty.")
  else
    uploadedURL <~ uploadToGCPStorage B tempScriptName "text/plain" (Text (default "" script)) Temp ;;
    ret uploadedURL.

(** ** Google Text-to-Speech: the voiceover stage *)

Definition generateVoiceoverUsingGoogleTTS (B : Backends) (scriptURL outputFileName : string) : M string :=
  emit (EvFetch scriptURL) ;;;
  response <~ await (fetch B scriptURL) ;;
  if negb (ok response) then
    throw (Error ("Failed to fetch script. Status: " +:+ pretty (fetch_status response) +:+
                  ", Error: " +:+ statusText response))
  else
    let text := text response in
    if falsy (Some text) then
      throw (Error "Failed to fetch script. The response is empty.")
    else
      emit (EvSynthesizeSpeech text) ;;;
      audioContent <~ await (synthesizeSpeech B text) ;;
      match audioContent with
      | None => throw (Error "Audio content is empty.")
      | Some audio =>
          audioURL <~ uploadToGCPStorage B outputFileName "audio/mpeg" (Bytes audio) Temp ;;
          ret audioURL
      end.

(** ** RunwayML: the video stage *)

(** [['SUCCEEDED', 'FAILED'].includes(task.status)] *)
Definition terminal (st : string) : bool :=
  bool_decide (st ∈ ["SUCCEEDED"; "FAILED"]).

(** The do-while loop.  Its body runs before the status is tested; [fuel]
    bounds how many times the loop may go round again, and [k] counts the
    retrievals already made. *)
Fixpoint poll (fuel : nat) (B : Backends) (taskId : string) (k : nat) : M Task :=
  emit (EvSetTimeout 10000) ;;;
  emit (EvTasksRetrieve taskId) ;;;
  task <~ await (tasks_retrieve B taskId k) ;;
  if negb (terminal (status task)) then
    match fuel with
    | O => running
    | S fuel' => poll fuel' B taskId (S k)
    end
  else ret task.

(** The promise settles in the callback of [https.get] and in the
    listeners of the response; an exception of [https.get] itself is thrown
    inside the executor and rejects the promise. *)
Definition fetchVideoAsBuffer (B : Backends) (videoUrl : string) : M (list byte) :=
  emit (EvHttpsGet videoUrl) ;;;
  match https_get B videoUrl with
  | Refused err => throw err
  | NoResponse => running
  | Responded response =>
      if bool_decide (statusCode response ≠ 200) then
        throw (Error ("Failed to fetch video. Status code: " +:+ pretty (statusCode response)))
      else
        match finish response with
        | OnEnd => ret (concat (chunks response))
        | OnError err => throw err
        | Stalls => running
        end
  end.

(** [task.output ? task.output[0] : null] *)
Definition first_output (task : Task) : option string :=
  match output task with
  | Some out => head out
  | None => None
  end.

Definition generateVideoFromRunwayML (fuel : nat) (B : Backends)
    (sports photo tempVideoName : string) : M string :=
  emit (EvImageToVideo photo) ;;;
  taskId <~ await (imageToVideo_create B photo) ;;
  task <~ poll fuel B taskId 0 ;;
  if bool_decide (status task = "SUCCEEDED") then
    let videoUrl := first_output task in
    if falsy videoUrl then
      throw (Error "Task output is undefined or empty.")
    else
      videoBuffer <~ fetchVideoAsBuffer B (default "" videoUrl) ;;
      videoURL <~ uploadToGCPStorage B tempVideoName "video/mp4" (Bytes videoBuffer) Temp ;;
      ret videoURL
  else
    throw (Error "Video generation failed.").

(** ** The route handler *)

Record Data : Type :=
  { success : bool; scriptURL : string; voiceoverURL : string; videoURL : string }.

(** The two shapes of object the handler passes to [NextResponse.json]:
    [{ error }] and [{ status, data, errors }], where an absent [data] or
    [errors] is the empty object literal. *)
Inductive Json : Type :=
| ParamError (error : string)
| Envelope (status : Z) (data : option Data) (errors : option Err).

(** [JSON.stringify] on a caught value: an Error object has no enumerable
    property and becomes the empty object, its message is not written. *)
Definition stringify_error (e : Err) : option JsonValue :=
  match e with
  | Error _ => Some (JObject [])
  | Thrown as_json => as_json
  end.

Definition stringify_data (d : Data) : JsonValue :=
  JObject [("success", JBool (success d)); ("scriptURL", JString (scriptURL d));
           ("voiceoverURL", JString (voiceoverURL d)); ("videoURL", JString (videoURL d))].

(** [JSON.stringify] on the object literals of the handler; a member whose
    value has no JSON text is left out. *)
Definition stringify (body : Json) : JsonValue :=
  match body with
  | ParamError error => JObject [("error", JString error)]
  | Envelope status data errors =>
      JObject [("status", JNumber (pretty status));
               ("data", match data with
                        | Some d => stringify_data d
                        | None => JObject []
                        end);
               ("errors", match errors with
                          | Some e => JObject match stringify_error e with
                                              | Some j => [("error", j)]
                                              | None => []
                                              end
                          | None => JObject []
                          end)]
  end.

(** A response as it is sent: the HTTP status and the body, serialised. *)
Record NextResponse : Type := { json : JsonValue; http_status : Z }.

(** [NextResponse.json(body, init)]; without [init] the status is 200. *)
Definition NextResponse_json (body : Json) (init : option Z) : NextResponse :=
  {| json := stringify body; http_status := default 200 init |}.

Definition randomId_of (B : Backends) : string := pretty (Date_now B).

(** [const { sports, photo } = body]: destructuring null throws a
    TypeError (the message is V8's), any other value gives the two members
    or undefined. *)
Definition destructure (body : JsonValue) : M Body :=
  match body with
  | JNull => throw (Error "Cannot destructure property 'sports' of 'body' as it is null.")
  | _ => ret {| sports := member "sports" body; photo := member "photo" body |}
  end.

(** The body of the [try] block.  The stages are typed on strings and use
    [sports] and [photo] inside template literals only, so they are called
    here on the texts those literals print. *)
Definition POST_try (fuel : nat) (B : Backends) (request_json : Settled JsonValue)
    : M NextResponse :=
  body <~ await request_json ;;
  body <~ destructure body ;;
  if falsy_value (sports body) || falsy_value (photo body) then
    ret (NextResponse_json (ParamError "issue in params") (Some 400))
  else
    let sports := template (sports body) in
    let photo := template (photo body) in
    let randomId := randomId_of B in
    let tempScriptName := "script-" +:+ randomId +:+ ".txt" in
    let tempVideoName := "video-" +:+ randomId +:+ ".mp4" in
    let tempAudioName := "audio-" +:+ randomId +:+ ".mp3" in
    scriptURL <~ generateVideoScriptUsingGemini B sports tempScriptName ;;
    voiceoverURL <~ generateVoiceoverUsingGoogleTTS B scriptURL tempAudioName ;;
    videoURL <~ generateVideoFromRunwayML fuel B sports photo tempVideoName ;;
    ret (NextResponse_json
           (Envelope 200
              (Some {| success := true; scriptURL := scriptURL;
                       voiceoverURL := voiceoverURL; videoURL := videoURL |})
              None)
           None).

(** [POST]: the [catch] turns any thrown value into a 500 envelope.  [None]
    is a handler that has not answered. *)
Definition POST (fuel : nat) (B : Backends) (request_json : Settled JsonValue)
    (w : World) : option NextResponse * World :=
  match POST_try fuel B request_json w with
  | (Ret r, w') => (Some r, w')
  | (Throw error, w') =>
      (Some (NextResponse_json (Envelope 500 None (Some error)) None), w')
  | (Running, w') => (None, w')
  end.

(** ** Observations on a run *)

(** The world after [evs] more calls that do not touch the bucket. *)
Definition log (w : World) (evs : list Event) : World :=
  {| store := store w; trace := trace w ++ evs |}.

(** The calls made between two worlds of one run. *)
Definition emitted (w w' : World) : list Event :=
  drop (length (trace w)) (trace w').

Definition is_retrieve (e : Event) : bool :=
  match e with EvTasksRetrieve _ => true | _ => false end.

Definition is_https_get (e : Event) : bool :=
  match e with EvHttpsGet _ => true | _ => false end.

Definition is_fetch (e : Event) : bool :=
  match e with EvFetch _ => true | _ => false end.

Definition is_upload (e : Event) : bool :=
  match e with EvSave _ _ _ | EvMakePublic _ => true | _ => false end.

Fixpoint count_events (p : Event -> bool) (evs : list Event) : nat :=
  match evs with
  | [] => O
  | e :: evs' => ((if p e then 1 else 0) + count_events p evs')%nat
  end.

(** The calls of [n] rounds of the polling loop on task [taskId]. *)
Fixpoint poll_events (taskId : string) (n : nat) : list Event :=
  match n with
  | O => []
  | S n' => EvSetTimeout 10000 :: EvTasksRetrieve taskId :: poll_events taskId n'
  end.

(** Every status query of [evs] comes right after a timer of [ms]
    milliseconds. *)
Definition sleeps_before_queries (ms : Z) (evs : list Event) : Prop :=
  forall i taskId, evs !! i = Some (EvTasksRetrieve taskId) ->
    exists j, i = S j /\ evs !! j = Some (EvSetTimeout ms).

(** The backend answers the retrievals [k], ..., [k + n - 1] of the task
    with a status that is not terminal. *)
Definition pending_for (B : Backends) (taskId : string) (k n : nat) : Prop :=
  forall j, (j < n)%nat ->
    exists task, tasks_retrieve B taskId (k + j) = Resolved task /\
                 terminal (status task) = false.

(** The backend answers retrieval number [k] of the task with status [st]. *)
Definition reports (B : Backends) (taskId st : string) (k : nat) : Prop :=
  exists task, tasks_retrieve B taskId k = Resolved task /\ status task = st.

(** The backend reports RUNNING [n] times and then hands out [task]. *)
Definition running_then (B : Backends) (taskId : string) (n : nat) (task : Task) : Prop :=
  (forall j, (j < n)%nat -> reports B taskId "RUNNING" j) /\
  tasks_retrieve B taskId n = Resolved task.

(** How the download of [videoUrl] settles, if it does. *)
Definition download_of (B : Backends) (videoUrl : string) : Outcome (list byte) :=
  match https_get B videoUrl with
  | Refused err => Throw err
  | NoResponse => Running
  | Responded response =>
      if bool_decide (statusCode response ≠ 200) then
        Throw (Error ("Failed to fetch video. Status code: " +:+ pretty (statusCode response)))
      else
        match finish response with
        | OnEnd => Ret (concat (chunks response))
        | OnError err => Throw err
        | Stalls => Running
        end
  end.

(** The code of [generateVideoFromRunwayML] that follows the loop. *)
Definition after_poll (B : Backends) (task : Task) (tempVideoName : string) : M string :=
  if bool_decide (status task = "SUCCEEDED") then
    let videoUrl := first_output task in
    if falsy videoUrl then
      throw (Error "Task output is undefined or empty.")
    else
      videoBuffer <~ fetchVideoAsBuffer B (default "" videoUrl) ;;
      videoURL <~ uploadToGCPStorage B tempVideoName "video/mp4" (Bytes videoBuffer) Temp ;;
      ret videoURL
  else
    throw (Error "Video generation failed.").

(** The three artifact names of a request. *)
Definition tempScriptName_of (B : Backends) : string := "script-" +:+ randomId_of B +:+ ".txt".
Definition tempAudioName_of (B : Backends) : string := "audio-" +:+ randomId_of B +:+ ".mp3".
Definition tempVideoName_of (B : Backends) : string := "video-" +:+ randomId_of B +:+ ".mp4".

(** The body the Create page posts for a sport and an image:
    [JSON.stringify({ sports: sports, photo: base64Image })]. *)
Definition request_body (sports photo : string) : JsonValue :=
  JObject [("sports", JString sports); ("photo", JString photo)].

(** The data of an answer, when its [data] member has the four members of
    a successful run. *)
Definition data_of (r : NextResponse) : option Data :=
  match member "data" (json r) with
  | Some d =>
      match member "success" d, member "scriptURL" d,
            member "voiceoverURL" d, member "videoURL" d with
      | Some (JBool b), Some (JString s), Some (JString v), Some (JString u) =>
          Some {| success := b; scriptURL := s; voiceoverURL := v; videoURL := u |}
      | _, _, _, _ => None
      end
  | None => None
  end.

(** The answer to a stage that threw [e]. *)
Definition failure_answer (e : Err) : NextResponse :=
  NextResponse_json (Envelope 500 None (Some e)) None.

Definition is_null (v : JsonValue) : bool :=
  match v with
  | JNull => true
  | _ => false
  end.

(** What destructuring the null body throws. *)
Definition null_body_error : Err :=
  Error "Cannot destructure property 'sports' of 'body' as it is null.".

(** The request reaches the stages: its body parses, is not null, and has
    a truthy [sports] and a truthy [photo]. *)
Definition passes_guard (request_json : Settled JsonValue) : bool :=
  match request_json with
  | Resolved body =>
      negb (is_null body || falsy_value (member "sports" body)
            || falsy_value (member "photo" body))
  | Rejected _ => false
  end.

(** The answer to a body that fails the guard. *)
Definition params_answer : NextResponse :=
  NextResponse_json (ParamError "issue in params") (Some 400).

(** The answer to a run whose stages returned the three URLs. *)
Definition success_answer (scriptURL voiceoverURL videoURL : string) : NextResponse :=
  NextResponse_json
    (Envelope 200
       (Some {| success := true; scriptURL := scriptURL;
                voiceoverURL := voiceoverURL; videoURL := videoURL |})
       None)
    None.

(** The code of [POST] that follows the guard, with the [catch], on the
    texts of [sports] and [photo]. *)
Definition after_guard (fuel : nat) (B : Backends) (sports photo : string) (w : World)
    : option NextResponse * World :=
  match
    (scriptURL <~ generateVideoScriptUsingGemini B sports (tempScriptName_of B) ;;
     voiceoverURL <~ generateVoiceoverUsingGoogleTTS B scriptURL (tempAudioName_of B) ;;
     videoURL <~ generateVideoFromRunwayML fuel B sports photo (tempVideoName_of B) ;;
     ret (success_answer scriptURL voiceoverURL videoURL)) w
  with
  | (Ret r, w') => (Some r, w')
  | (Throw e, w') => (Some (failure_answer e), w')
  | (Running, w') => (None, w')
  end.

(** A run deletes nothing: what the bucket held it still holds, and what the
    run saved is there. *)
Definition keeps (B : Backends) (w w' : World) : Prop :=
  exists evs, trace w' = trace w ++ evs /\
    (forall p, is_Some (store w !! p) -> is_Some (store w' !! p)) /\
    (forall p t c, EvSave p t c ∈ evs -> file_save B p t c = Resolved tt ->
       is_Some (store w' !! p)).

(** A stage of the pipeline throws [e] and leaves the world [w']. *)
Inductive stage_failure (fuel : nat) (B : Backends) (sp ph : string) (w : World)
  : Err -> World -> Prop :=
| script_failed e w1 :
    generateVideoScriptUsingGemini B sp (tempScriptName_of B) w = (Throw e, w1) ->
    stage_failure fuel B sp ph w e w1
| voiceover_failed url w1 e w2 :
    generateVideoScriptUsingGemini B sp (tempScriptName_of B) w = (Ret url, w1) ->
    generateVoiceoverUsingGoogleTTS B url (tempAudioName_of B) w1 = (Throw e, w2) ->
    stage_failure fuel B sp ph w e w2
| video_failed url w1 url' w2 e w3 :
    generateVideoScriptUsingGemini B sp (tempScriptName_of B) w = (Ret url, w1) ->
    generateVoiceoverUsingGoogleTTS B url (tempAudioName_of B) w1 = (Ret url', w2) ->
    generateVideoFromRunwayML fuel B sp ph (tempVideoName_of B) w2 = (Throw e, w3) ->
    stage_failure fuel B sp ph w e w3.

(** ** Mocked backends *)

Definition w0 : World := {| store := ∅; trace := [] |}.

(** A backend set that answers every call: the script is [script], the
    video task is "42", its retrievals are answered by [retrieve] and the
    download of its output by [download]; the clock reads [now]. *)
Definition mock (now : Z) (script : string) (retrieve : nat -> Task)
    (download : IncomingMessage) : Backends := {|
  Date_now := now;
  generateContent := fun _ => Resolved (Some script);
  fetch := fun _ =>
    Resolved {| ok := true; fetch_status := 200; statusText := "OK"; text := script |};
  synthesizeSpeech := fun _ => Resolved (Some ["I"; "D"; "3"]%byte);
  imageToVideo_create := fun _ => Resolved "42";
  tasks_retrieve := fun _ k => Resolved (retrieve k);
  https_get := fun _ => Responded download;
  file_save := fun _ _ _ => Resolved tt;
  file_makePublic := fun _ => Resolved tt
|}.

Definition running_task : Task := {| status := "RUNNING"; output := None |}.

Definition two_rounds_then (last : Task) (k : nat) : Task :=
  if (k <? 2)%nat then running_task else last.

Definition mp4 : IncomingMessage :=
  {| statusCode := 200; chunks := [["f"; "t"]; ["y"; "p"]]%byte; finish := OnEnd |}.

(** RUNNING, RUNNING, SUCCEEDED with one output, downloaded with status 200. *)
Definition cricket : Backends :=
  mock 1700000000000 "Cricket began in southern England"
    (two_rounds_then {| status := "SUCCEEDED"; output := Some ["https://cdn/example.mp4"] |})
    mp4.

(** The same millisecond, another script. *)
Definition tennis : Backends :=
  mock 1700000000000 "Tennis grew out of a game of monks"
    (two_rounds_then {| status := "SUCCEEDED"; output := Some ["https://cdn/example.mp4"] |})
    mp4.

(** RUNNING, RUNNING, SUCCEEDED but without an output. *)
Definition no_output : Backends :=
  mock 1700000000000 "Cricket began in southern England"
    (two_rounds_then {| status := "SUCCEEDED"; output := None |})
    mp4.

(** RUNNING, RUNNING, FAILED. *)
Definition failing : Backends :=
  mock 1700000000000 "Cricket began in southern England"
    (two_rounds_then {| status := "FAILED"; output := None |})
    mp4.

(** The task is SUCCEEDED at the first retrieval. *)
Definition already_done : Backends :=
  mock 1700000000000 "Cricket began in southern England"
    (fun _ => {| status := "SUCCEEDED"; output := Some ["https://cdn/example.mp4"] |})
    mp4.

(** A task that stays RUNNING. *)
Definition never_done : Backends :=
  mock 1700000000000 "Cricket began in southern England" (fun _ => running_task) mp4.



Definition cricket_body : JsonValue :=
  request_body "cricket" "data:image/jpeg;base64,/9j/4AAQ".

Definition tennis_body : JsonValue :=
  request_body "tennis" "data:image/jpeg;base64,/9j/4AAQ".

(** ** More observations *)

Definition is_generate (e : Event) : bool :=
  match e with EvGenerateContent _ => true | _ => false end.

Definition is_synthesize (e : Event) : bool :=
  match e with EvSynthesizeSpeech _ => true | _ => false end.

Definition is_create (e : Event) : bool :=
  match e with EvImageToVideo _ => true | _ => false end.

Definition is_save (e : Event) : bool :=
  match e with EvSave _ _ _ => true | _ => false end.

(** The stage that makes a call; the two storage calls are shared. *)
Inductive Stage : Type := ScriptStage | VoiceoverStage | VideoStage | Storage.

Definition stage_of (e : Event) : Stage :=
  match e with
  | EvGenerateContent _ => ScriptStage
  | EvFetch _ | EvSynthesizeSpeech _ => VoiceoverStage
  | EvImageToVideo _ | EvSetTimeout _ | EvTasksRetrieve _ | EvHttpsGet _ => VideoStage
  | EvSave _ _ _ | EvMakePublic _ => Storage
  end.

(** A run changes the bucket at the paths of [paths] only. *)
Definition only_touches (paths : list string) (w w' : World) : Prop :=
  forall p, p ∉ paths -> store w' !! p = store w !! p.

(** The three paths of a request. *)
Definition scriptPath_of (B : Backends) : string := "temp/" +:+ tempScriptName_of B.
Definition audioPath_of (B : Backends) : string := "temp/" +:+ tempAudioName_of B.
Definition videoPath_of (B : Backends) : string := "temp/" +:+ tempVideoName_of B.

Definition request_paths (B : Backends) : list string :=
  [scriptPath_of B; audioPath_of B; videoPath_of B].

(** How often a list of calls generates, fetches the script, synthesizes,
    creates a video job, downloads an output and saves, at most. *)
Definition calls_within (g f s c h v : nat) (evs : list Event) : Prop :=
  (count_events is_generate evs <= g)%nat /\
  (count_events is_fetch evs <= f)%nat /\
  (count_events is_synthesize evs <= s)%nat /\
  (count_events is_create evs <= c)%nat /\
  (count_events is_https_get evs <= h)%nat /\
  (count_events is_save evs <= v)%nat.

(** The calls of [evs] are storage calls or calls of the stage [st]. *)
Definition calls_of_stage (st : Stage) (evs : list Event) : Prop :=
  Forall (fun e => stage_of e = st \/ stage_of e = Storage) evs.

(** Every backend answers a request for [sp] and [ph] well: a non-empty
    script, a script URL that is served with a non-empty text, audio for
    that text, a video job that is SUCCEEDED with a non-empty first output
    after [n <= fuel] other answers, an output served with status 200 to
    the end, and a storage service that accepts the three uploads. *)
Definition all_backends_answer (fuel : nat) (B : Backends) (sp ph : string) : Prop :=
  exists script response audio taskId n task videoUrl download,
    generateContent B (prompt_of sp) = Resolved (Some script) /\ script ≠ "" /\
    file_save B (scriptPath_of B) "text/plain" (Text script) = Resolved tt /\
    file_makePublic B (scriptPath_of B) = Resolved tt /\
    fetch B (publicUrl_of (scriptPath_of B)) = Resolved response /\
    ok response = true /\ text response ≠ "" /\
    synthesizeSpeech B (text response) = Resolved (Some audio) /\
    file_save B (audioPath_of B) "audio/mpeg" (Bytes audio) = Resolved tt /\
    file_makePublic B (audioPath_of B) = Resolved tt /\
    imageToVideo_create B ph = Resolved taskId /\
    (n <= fuel)%nat /\ pending_for B taskId 0 n /\
    tasks_retrieve B taskId n = Resolved task /\ status task = "SUCCEEDED" /\
    first_output task = Some videoUrl /\ videoUrl ≠ "" /\
    https_get B videoUrl = Responded download /\
    statusCode download = 200 /\ finish download = OnEnd /\
    file_save B (videoPath_of B) "video/mp4"
      (Bytes (concat (chunks download))) = Resolved tt /\
    file_makePublic B (videoPath_of B) = Resolved tt.

(** The storage service refuses every write. *)
Definition storage_down : Backends := {|
  Date_now := Date_now cricket;
  generateContent := generateContent cricket;
  fetch := fetch cricket;
  synthesizeSpeech := synthesizeSpeech cricket;
  imageToVideo_create := imageToVideo_create cricket;
  tasks_retrieve := tasks_retrieve cricket;
  https_get := https_get cricket;
  file_save := fun _ _ _ => Rejected (Error "ECONNRESET");
  file_makePublic := file_makePublic cricket
|}.

(** The storage service writes but refuses to change the ACL. *)
Definition acl_denied : Backends := {|
  Date_now := Date_now cricket;
  generateContent := generateContent cricket;
  fetch := fetch cricket;
  synthesizeSpeech := synthesizeSpeech cricket;
  imageToVideo_create := imageToVideo_create cricket;
  tasks_retrieve := tasks_retrieve cricket;
  https_get := https_get cricket;
  file_save := file_save cricket;
  file_makePublic := fun _ => Rejected (Error "403 Forbidden")
|}.

(** The second retrieval of the task is rejected. *)
Definition retrieve_breaks : Backends := {|
  Date_now := Date_now cricket;
  generateContent := generateContent cricket;
  fetch := fetch cricket;
  synthesizeSpeech := synthesizeSpeech cricket;
  imageToVideo_create := imageToVideo_create cricket;
  tasks_retrieve := fun _ k =>
    if (k <? 1)%nat then Resolved running_task else Rejected (Error "429 Too Many Requests");
  https_get := https_get cricket;
  file_save := file_save cricket;
  file_makePublic := file_makePublic cricket
|}.

(** The script comes back empty. *)
Definition empty_script : Backends := {|
  Date_now := Date_now cricket;
  generateContent := fun _ => Resolved (Some "");
  fetch := fetch cricket;
  synthesizeSpeech := synthesizeSpeech cricket;
  imageToVideo_create := imageToVideo_create cricket;
  tasks_retrieve := tasks_retrieve cricket;
  https_get := https_get cricket;
  file_save := file_save cricket;
  file_makePublic := file_makePublic cricket
|}.

(** The stored script is not served: 404. *)
Definition script_not_found : Backends := {|
  Date_now := Date_now cricket;
  generateContent := generateContent cricket;
  fetch := fun _ =>
    Resolved {| ok := false; fetch_status := 404; statusText := "Not Found"; text := "" |};
  synthesizeSpeech := synthesizeSpeech cricket;
  imageToVideo_create := imageToVideo_create cricket;
  tasks_retrieve := tasks_retrieve cricket;
  https_get := https_get cricket;
  file_save := file_save cricket;
  file_makePublic := file_makePublic cricket
|}.

(** A request one millisecond after [cricket]. *)
Definition hockey : Backends :=
  mock 1700000000001 "Hockey was first played on frozen ponds"
    (two_rounds_then {| status := "SUCCEEDED"; output := Some ["https://cdn/example.mp4"] |})
    mp4.

Definition hockey_body : JsonValue :=
  request_body "hockey" "data:image/jpeg;base64,/9j/4AAQ".

(** The download of the output gets no response: the connection is
    refused. *)
Definition no_response : Backends := {|
  Date_now := Date_now cricket;
  generateContent := generateContent cricket;
  fetch := fetch cricket;
  synthesizeSpeech := synthesizeSpeech cricket;
  imageToVideo_create := imageToVideo_create cricket;
  tasks_retrieve := tasks_retrieve cricket;
  https_get := fun _ => NoResponse;
  file_save := file_save cricket;
  file_makePublic := file_makePublic cricket
|}.

(** PENDING, THROTTLED, then FAILED. *)
Definition queued_then_failed : Backends :=
  mock 1700000000000 "Cricket began in southern England"
    (fun k => if (k <? 1)%nat then {| status := "PENDING"; output := None |}
              else if (k <? 2)%nat then {| status := "THROTTLED"; output := None |}
              else {| status := "FAILED"; output := None |})
    mp4.


(** A body whose two members are empty arrays. *)
Definition empty_arrays_body : JsonValue :=
  JObject [("sports", JArray []); ("photo", JArray [])].

(** ** The Create page, the caller of the route *)

(** The body of an answer of the handler. *)
Definition answer_body (r : NextResponse) : JsonValue := json r.

Module Create.

(** A picked file, by what [FileReader.readAsDataURL] does with it: it
    loads and leaves [reader.result], or it errors. *)
Inductive File : Type :=
| Loads (result : option string)
| Unreadable.

(** [interface Data].  The state is set from members of a parsed body,
    which is typed [any]: a field holds whatever value the member has, or
    undefined ([None]). *)
Record Data : Type :=
  { scriptURL : option JsonValue; voiceoverURL : option JsonValue;
    videoURL : option JsonValue }.

(** What the browser's [fetch] resolves with, as far as the page reads it;
    [json] is what [response.json()] settles to. *)
Record Response : Type :=
  { ok : bool; statusText : string; json : Settled JsonValue }.

(** The state of the component, the alerts it has raised, in order, and
    the world of the server behind the route. *)
Record Page : Type := {
  selectedSport : string;
  selectedImage : option File;
  loading : bool;
  data : Data;
  alerts : list string;
  server : World
}.

Definition initial (w : World) : Page :=
  {| selectedSport := "cricket"; selectedImage := None; loading := false;
     data := {| scriptURL := Some (JString ""); voiceoverURL := Some (JString "");
                videoURL := Some (JString "") |};
     alerts := []; server := w |}.

Definition setSelectedSport (sport : string) (p : Page) : Page :=
  {| selectedSport := sport; selectedImage := selectedImage p; loading := loading p;
     data := data p; alerts := alerts p; server := server p |}.

Definition setSelectedImage (image : option File) (p : Page) : Page :=
  {| selectedSport := selectedSport p; selectedImage := image; loading := loading p;
     data := data p; alerts := alerts p; server := server p |}.

Definition setLoading (b : bool) (p : Page) : Page :=
  {| selectedSport := selectedSport p; selectedImage := selectedImage p; loading := b;
     data := data p; alerts := alerts p; server := server p |}.

Definition setData (d : Data) (p : Page) : Page :=
  {| selectedSport := selectedSport p; selectedImage := selectedImage p;
     loading := loading p; data := d; alerts := alerts p; server := server p |}.

Definition alert (message : string) (p : Page) : Page :=
  {| selectedSport := selectedSport p; selectedImage := selectedImage p;
     loading := loading p; data := data p; alerts := alerts p ++ [message];
     server := server p |}.

(** The server has moved on to the world [w]. *)
Definition served (w : World) (p : Page) : Page :=
  {| selectedSport := selectedSport p; selectedImage := selectedImage p;
     loading := loading p; data := data p; alerts := alerts p; server := w |}.

(** The promise is rejected with a string, not with an Error. *)
Definition convertImageToBase64 (file : File) : Settled string :=
  match file with
  | Loads result =>
      if falsy result then
        Rejected (Thrown (Some (JString "Failed to convert file to Base64.")))
      else Resolved (default "" result)
  | Unreadable => Rejected (Thrown (Some (JString "Error reading file.")))
  end.

Definition try_again : string :=
  "An error occurred while generating the video. Please try again.".

(** [generateVideo]; [api] is the POST to /api/generate-video with the
    given body.  Every error is caught, alerted, and turns the result into
    undefined ([None]). *)
Definition generateVideo (api : JsonValue -> M Response) (sports : string)
    (image : option File) (p : Page) : Outcome (option JsonValue) * Page :=
  if falsy (Some sports) then
    (Ret None, alert "Please enter a Sports name." p)
  else
    match image with
    | None => (Ret None, alert "Please upload an image." p)
    | Some file =>
        match convertImageToBase64 file with
        | Rejected _ => (Ret None, alert try_again p)
        | Resolved base64Image =>
            match api (request_body sports base64Image) (server p) with
            | (Running, w) => (Running, served w p)
            | (Throw _, w) => (Ret None, alert try_again (served w p))
            | (Ret response, w) =>
                if negb (ok response) then
                  (Ret None, alert try_again (served w p))
                else
                  match json response with
                  | Rejected _ => (Ret None, alert try_again (served w p))
                  | Resolved data => (Ret (Some data), served w p)
                  end
            end
        end
    end.

(** Reading [v.k] where [v] may be undefined or null: these two have no
    members, and reading one throws a TypeError. *)
Inductive Read : Type :=
| TypeError
| Value (v : option JsonValue).

Definition read (k : string) (v : option JsonValue) : Read :=
  match v with
  | None | Some JNull => TypeError
  | Some v => Value (member k v)
  end.

Section Engine.

(** [Number(s)] of the browser's engine on a string, as the text of the
    resulting number; [None] is NaN. *)
Variable StringToNumber : string -> option string.

(** [v == 200]: a number is compared as it is, a string by its numeric
    value, an array or object by the numeric value of its text; undefined,
    null and the booleans (0 and 1 as numbers) never equal 200. *)
Definition loosely_200 (v : option JsonValue) : bool :=
  match v with
  | None | Some JNull | Some (JBool _) => false
  | Some (JNumber shown) => bool_decide (shown = "200")
  | Some (JString s) => bool_decide (StringToNumber s = Some "200")
  | Some (JArray items) => bool_decide (StringToNumber (to_string (JArray items)) = Some "200")
  | Some (JObject members) =>
      bool_decide (StringToNumber (to_string (JObject members)) = Some "200")
  end.

(** [onhandleGenerate]: a TypeError of a member read is caught by the
    [catch], which only logs; the [finally] clears the spinner.  The three
    members of [apiResponse.data] are read before [setData] is called. *)
Definition onhandleGenerate (api : JsonValue -> M Response) (p : Page) : Outcome unit * Page :=
  let p := setLoading true p in
  match generateVideo api (selectedSport p) (selectedImage p) p with
  | (Running, p') => (Running, p')
  | (Throw _, p') => (Ret tt, setLoading false p')
  | (Ret apiResponse, p') =>
      match read "status" apiResponse with
      | TypeError => (Ret tt, setLoading false p')
      | Value status =>
          if loosely_200 status then
            match read "data" apiResponse with
            | TypeError => (Ret tt, setLoading false p')
            | Value data =>
                match read "scriptURL" data, read "voiceoverURL" data, read "videoURL" data with
                | Value s, Value v, Value u =>
                    (Ret tt, setLoading false
                               (setData {| scriptURL := s; voiceoverURL := v;
                                           videoURL := u |} p'))
                | _, _, _ => (Ret tt, setLoading false p')
                end
            end
          else
            (Ret tt, setLoading false (alert "Error in generating video" p'))
      end
  end.

End Engine.

(** The route as the browser sees it: [ok] is true for the statuses 200
    to 299, the body is the JSON text the handler answered with, and no
    answer is a fetch that stays pending. *)
Definition serve (fuel : nat) (B : Backends) (body : JsonValue) : M Response :=
  fun w =>
    match POST fuel B (Resolved body) w with
    | (Some r, w') =>
        (Ret {| ok := bool_decide (200 <= http_status r <= 299);
                statusText := if bool_decide (http_status r = 200) then "OK"
                              else if bool_decide (http_status r = 400) then "Bad Request"
                              else "";
                json := Resolved (answer_body r) |}, w')
    | (None, w') => (Running, w')
    end.

End Create.

(** An engine for the examples: of the strings, it takes "200" for the
    number 200 and no other for a number. *)
Definition plain_engine (s : string) : option string :=
  if bool_decide (s = "200") then Some "200" else None.


(** * Properties *)

Ltac run_unfold :=
  unfold bind, emit, await, ret, throw, running, modify_store in *.

(** ** Traces *)

Lemma emitted_app w w' evs : trace w' = trace w ++ evs -> emitted w w' = evs.
Proof. unfold emitted. intros ->. by rewrite drop_app_length. Qed.

Lemma emitted_log w evs : emitted w (log w evs) = evs.
Proof. by apply emitted_app. Qed.

Lemma log_log w evs1 evs2 : log (log w evs1) evs2 = log w (evs1 ++ evs2).
Proof. unfold log; simpl. by rewrite app_assoc. Qed.

Lemma count_events_app p l1 l2 :
  count_events p (l1 ++ l2) = (count_events p l1 + count_events p l2)%nat.
Proof. induction l1 as [|e l1 IH]; simpl; [done | rewrite IH; lia]. Qed.

Lemma count_retrieve_poll_events taskId n :
  count_events is_retrieve (poll_events taskId n) = n.
Proof. induction n as [|n IH]; simpl; [done | by rewrite IH]. Qed.

Lemma count_https_get_poll_events taskId n :
  count_events is_https_get (poll_events taskId n) = O.
Proof. induction n as [|n IH]; simpl; done. Qed.

Lemma count_upload_poll_events taskId n :
  count_events is_upload (poll_events taskId n) = O.
Proof. induction n as [|n IH]; simpl; done. Qed.

(** ** Run equations *)

(** What [uploadToGCPStorage] does, by the answers of the storage service. *)
Lemma uploadToGCPStorage_eq B fileName fileType fileContent cat w :
  let filePath := directory_of cat +:+ "/" +:+ fileName in
  uploadToGCPStorage B fileName fileType fileContent cat w =
  match file_save B filePath fileType fileContent with
  | Rejected e =>
      (Throw e, log w [EvSave filePath fileType fileContent])
  | Resolved _ =>
      match file_makePublic B filePath with
      | Rejected e =>
          (Throw e, {| store := <[filePath := stored fileType fileContent false]> (store w);
                       trace := trace w ++ [EvSave filePath fileType fileContent;
                                            EvMakePublic filePath] |})
      | Resolved _ =>
          (Ret (publicUrl_of filePath),
           {| store := <[filePath := stored fileType fileContent true]> (store w);
              trace := trace w ++ [EvSave filePath fileType fileContent;
                                   EvMakePublic filePath] |})
      end
  end.
Proof.
  intros filePath. unfold uploadToGCPStorage.
  change (falsy (Some bucketName)) with false.
  unfold gcpFile_save, gcpFile_makePublic. fold filePath. run_unfold. simpl.
  destruct (file_save B filePath fileType fileContent) as [[]|e]; simpl; [|done].
  destruct (file_makePublic B filePath) as [[]|e]; simpl.
  - by rewrite alter_insert_eq, <- app_assoc.
  - by rewrite <- app_assoc.
Qed.

Lemma fetchVideoAsBuffer_eq B videoUrl w :
  fetchVideoAsBuffer B videoUrl w = (download_of B videoUrl, log w [EvHttpsGet videoUrl]).
Proof.
  unfold fetchVideoAsBuffer, download_of. run_unfold. simpl.
  destruct (https_get B videoUrl) as [err|response|]; [done| |done].
  case_bool_decide; [done|]. by destruct (finish _).
Qed.

Lemma generateVideoFromRunwayML_eq fuel B sp ph name w :
  generateVideoFromRunwayML fuel B sp ph name w =
  match imageToVideo_create B ph with
  | Rejected e => (Throw e, log w [EvImageToVideo ph])
  | Resolved taskId =>
      match poll fuel B taskId 0 (log w [EvImageToVideo ph]) with
      | (Ret task, w1) => after_poll B task name w1
      | (Throw e, w1) => (Throw e, w1)
      | (Running, w1) => (Running, w1)
      end
  end.
Proof.
  unfold generateVideoFromRunwayML, after_poll, bind at 1 2, emit, await. simpl.
  destruct (imageToVideo_create B ph) as [taskId|e]; [|done].
  unfold ret at 1, bind at 1. by destruct (poll _ _ _ _ _) as [[task|e|] w1].
Qed.

Lemma poll_unfold fuel B taskId k w :
  poll fuel B taskId k w =
  match tasks_retrieve B taskId k with
  | Rejected e => (Throw e, log w (poll_events taskId 1))
  | Resolved task =>
      if terminal (status task) then (Ret task, log w (poll_events taskId 1))
      else match fuel with
           | O => (Running, log w (poll_events taskId 1))
           | S fuel' => poll fuel' B taskId (S k) (log w (poll_events taskId 1))
           end
  end.
Proof.
  unfold log.
  destruct fuel; simpl; run_unfold; simpl; rewrite <- app_assoc; simpl;
    (destruct (tasks_retrieve B taskId k) as [task|e]; [|done]);
    by destruct (terminal (status task)).
Qed.

(** ** The polling loop *)

Lemma pending_for_S B taskId k n :
  pending_for B taskId k (S n) ->
  (exists task, tasks_retrieve B taskId k = Resolved task /\
                terminal (status task) = false) /\
  pending_for B taskId (S k) n.
Proof.
  intros H. split.
  - destruct (H O) as (task & Hk & Ht); [lia|]. rewrite Nat.add_0_r in Hk. eauto.
  - intros j Hj. destruct (H (S j)) as (task & Hk & Ht); [lia|].
    exists task. split; [|done]. by rewrite <- Hk, Nat.add_succ_r.
Qed.

(** [n] pending answers and then a terminal one: the loop makes [n + 1]
    rounds and hands the terminal task on, whenever it may go round [n]
    times. *)
Lemma poll_terminates n : forall fuel B taskId k w task,
  pending_for B taskId k n ->
  tasks_retrieve B taskId (k + n) = Resolved task ->
  terminal (status task) = true ->
  (n <= fuel)%nat ->
  poll fuel B taskId k w = (Ret task, log w (poll_events taskId (S n))).
Proof.
  induction n as [|n IH]; intros fuel B taskId k w task Hpend Hlast Hterm Hfuel.
  - rewrite Nat.add_0_r in Hlast. by rewrite poll_unfold, Hlast, Hterm.
  - apply pending_for_S in Hpend as [(t0 & Hk & Ht0) Hpend].
    destruct fuel as [|fuel]; [lia|].
    rewrite poll_unfold, Hk, Ht0.
    rewrite (IH fuel B taskId (S k) _ task); try done; try lia.
    + by rewrite log_log.
    + by rewrite <- Hlast, Nat.add_succ_r.
Qed.

(** A backend that never answers with a terminal status keeps the loop
    going for as long as it is observed. *)
Lemma poll_diverges fuel : forall B taskId k w,
  (forall n, pending_for B taskId k n) ->
  poll fuel B taskId k w = (Running, log w (poll_events taskId (S fuel))).
Proof.
  induction fuel as [|fuel IH]; intros B taskId k w Hpend.
  - destruct (pending_for_S _ _ _ _ (Hpend 1%nat)) as [(t0 & Hk & Ht0) _].
    by rewrite poll_unfold, Hk, Ht0.
  - destruct (pending_for_S _ _ _ _ (Hpend 1%nat)) as [(t0 & Hk & Ht0) _].
    rewrite poll_unfold, Hk, Ht0, IH.
    + by rewrite log_log.
    + intros n. by destruct (pending_for_S _ _ _ _ (Hpend (S n))).
Qed.

(** Whatever the backend answers, the loop makes between one and
    [fuel + 1] rounds, touches nothing but the timer and the task, and a
    task it hands on is terminal. *)
Lemma poll_shape fuel : forall B taskId k w,
  exists n, (1 <= n <= S fuel)%nat /\
    snd (poll fuel B taskId k w) = log w (poll_events taskId n) /\
    forall task, fst (poll fuel B taskId k w) = Ret task ->
      terminal (status task) = true.
Proof.
  induction fuel as [|fuel IH]; intros B taskId k w; rewrite poll_unfold.
  - exists 1%nat. split; [lia|].
    destruct (tasks_retrieve B taskId k) as [task|e]; [|by split].
    destruct (terminal (status task)) eqn:Ht; split; try done.
    simpl. by intros ? [= <-].
  - destruct (tasks_retrieve B taskId k) as [task|e].
    + destruct (terminal (status task)) eqn:Ht.
      * exists 1%nat. split; [lia|]. split; [done|]. simpl. by intros ? [= <-].
      * destruct (IH B taskId (S k) (log w (poll_events taskId 1))) as (n & Hn & Hw & Hr).
        exists (S n). split; [lia|]. split; [|done].
        by rewrite Hw, log_log.
    + exists 1%nat. split; [lia|]. by split.
Qed.

(** More fuel does not change a run of the loop that has ended. *)
Lemma poll_fuel_mono fuel : forall fuel' B taskId k w,
  (fuel <= fuel')%nat ->
  fst (poll fuel B taskId k w) <> Running ->
  poll fuel' B taskId k w = poll fuel B taskId k w.
Proof.
  induction fuel as [|fuel IH]; intros fuel' B taskId k w Hle Hend;
    rewrite poll_unfold in Hend; rewrite (poll_unfold fuel'), (poll_unfold _ B taskId k w).
  - destruct (tasks_retrieve B taskId k) as [task|e]; [|done].
    by destruct (terminal (status task)).
  - destruct (tasks_retrieve B taskId k) as [task|e]; [|done].
    destruct (terminal (status task)); [done|].
    destruct fuel' as [|fuel']; [lia|]. apply IH; [lia|done].
Qed.

Lemma terminal_RUNNING : terminal "RUNNING" = false.
Proof. reflexivity. Qed.

Lemma terminal_SUCCEEDED : terminal "SUCCEEDED" = true.
Proof. reflexivity. Qed.

Lemma terminal_FAILED : terminal "FAILED" = true.
Proof. reflexivity. Qed.


Lemma running_then_pending B taskId n task :
  running_then B taskId n task -> pending_for B taskId 0 n.
Proof.
  intros [Hrun _] j Hj. destruct (Hrun j Hj) as (t & Ht & Hst).
  exists t. split; [done|]. by rewrite Hst.
Qed.

(** The video stage on a backend that gives [n] answers that are not
    terminal and then a terminal task: the job is created, the loop makes
    [n + 1] rounds, and the code after the loop runs on the terminal task. *)
Lemma generateVideoFromRunwayML_pending_then fuel B sp ph name w taskId n task :
  imageToVideo_create B ph = Resolved taskId ->
  pending_for B taskId 0 n ->
  tasks_retrieve B taskId n = Resolved task ->
  terminal (status task) = true ->
  (n <= fuel)%nat ->
  generateVideoFromRunwayML fuel B sp ph name w =
  after_poll B task name (log w (EvImageToVideo ph :: poll_events taskId (S n))).
Proof.
  intros Hcreate Hpend Hlast Hterm Hfuel.
  rewrite generateVideoFromRunwayML_eq, Hcreate.
  rewrite (poll_terminates n fuel B taskId 0 _ task); try done.
  by rewrite log_log.
Qed.

Lemma generateVideoFromRunwayML_running_then fuel B sp ph name w taskId n task :
  imageToVideo_create B ph = Resolved taskId ->
  running_then B taskId n task ->
  terminal (status task) = true ->
  (n <= fuel)%nat ->
  generateVideoFromRunwayML fuel B sp ph name w =
  after_poll B task name (log w (EvImageToVideo ph :: poll_events taskId (S n))).
Proof.
  intros Hcreate Hrun Hterm Hfuel.
  apply generateVideoFromRunwayML_pending_then; try done.
  - by eapply running_then_pending.
  - by destruct Hrun.
Qed.

Lemma after_poll_eq B task name w :
  after_poll B task name w =
  if bool_decide (status task = "SUCCEEDED") then
    if falsy (first_output task) then
      (Throw (Error "Task output is undefined or empty."), w)
    else
      let videoUrl := default "" (first_output task) in
      match fst (fetchVideoAsBuffer B videoUrl w) with
      | Ret videoBuffer =>
          uploadToGCPStorage B name "video/mp4" (Bytes videoBuffer) Temp
            (log w [EvHttpsGet videoUrl])
      | Throw e => (Throw e, log w [EvHttpsGet videoUrl])
      | Running => (Running, log w [EvHttpsGet videoUrl])
      end
  else (Throw (Error "Video generation failed."), w).
Proof.
  unfold after_poll. case_bool_decide; [|done].
  destruct (falsy (first_output task)); [done|].
  unfold bind at 1. rewrite fetchVideoAsBuffer_eq. simpl.
  destruct (download_of B _) as [videoBuffer|e|]; [|done|done].
  unfold bind, ret. by destruct (uploadToGCPStorage _ _ _ _ _ _) as [[?|?|] ?].
Qed.

Lemma after_poll_calls B task name w :
  exists tail, trace (snd (after_poll B task name w)) = trace w ++ tail /\
    Forall (fun e => is_https_get e || is_upload e = true) tail.
Proof.
  rewrite after_poll_eq.
  case_bool_decide; [|exists []; by rewrite app_nil_r].
  destruct (falsy (first_output task)); [exists []; by rewrite app_nil_r|].
  simpl. rewrite fetchVideoAsBuffer_eq. simpl.
  destruct (download_of B _) as [videoBuffer|e|]; simpl.
  - rewrite uploadToGCPStorage_eq. simpl.
    repeat case_match; simpl; rewrite <- app_assoc;
      (eexists; split; [reflexivity|]; by repeat constructor).
  - eexists. split; [reflexivity|]. by repeat constructor.
  - eexists. split; [reflexivity|]. by repeat constructor.
Qed.

(** The calls of the video stage: the job creation, then, if it resolved,
    between one and [fuel + 1] rounds of the loop, then at most the fetch
    of the output and the two calls of the upload. *)
Lemma generateVideoFromRunwayML_calls fuel B sp ph name w :
  exists evs, trace (snd (generateVideoFromRunwayML fuel B sp ph name w)) = trace w ++ evs /\
    ((exists e, imageToVideo_create B ph = Rejected e) /\ evs = [EvImageToVideo ph] \/
     exists taskId n tail,
       imageToVideo_create B ph = Resolved taskId /\
       (1 <= n <= S fuel)%nat /\
       evs = EvImageToVideo ph :: poll_events taskId n ++ tail /\
       Forall (fun e => is_https_get e || is_upload e = true) tail).
Proof.
  rewrite generateVideoFromRunwayML_eq.
  destruct (imageToVideo_create B ph) as [taskId|e] eqn:Hcreate.
  2:{ exists [EvImageToVideo ph]. split; [done|]. left. split; [by eexists|done]. }
  destruct (poll_shape fuel B taskId 0 (log w [EvImageToVideo ph])) as (n & Hn & Hw & _).
  destruct (poll fuel B taskId 0 _) as [[task|e|] w1] eqn:Hpoll; simpl in Hw; subst w1.
  - destruct (after_poll_calls B task name
                (log (log w [EvImageToVideo ph]) (poll_events taskId n))) as (tail & Htr & Htail).
    exists (EvImageToVideo ph :: poll_events taskId n ++ tail). split.
    + rewrite Htr. simpl. by rewrite <- !app_assoc.
    + right. by exists taskId, n, tail.
  - exists (EvImageToVideo ph :: poll_events taskId n ++ []). split.
    + simpl. by rewrite app_nil_r, <- app_assoc.
    + right. by exists taskId, n, [].
  - exists (EvImageToVideo ph :: poll_events taskId n ++ []). split.
    + simpl. by rewrite app_nil_r, <- app_assoc.
    + right. by exists taskId, n, [].
Qed.

(** Brings [emitted w w'] to the list of calls that [w'] appends to [w]. *)
Ltac emitted_norm :=
  erewrite !emitted_app by (simpl; rewrite <- ?app_assoc; reflexivity).

Ltac count_norm :=
  simpl;
  rewrite ?count_events_app, ?count_retrieve_poll_events,
    ?count_https_get_poll_events, ?count_upload_poll_events;
  simpl; try lia.

(** ** The script and voiceover stages, and the handler *)

Lemma generateVideoScriptUsingGemini_eq B sp name w :
  let prompt := prompt_of sp in
  generateVideoScriptUsingGemini B sp name w =
  match generateContent B prompt with
  | Rejected e => (Throw e, log w [EvGenerateContent prompt])
  | Resolved script =>
      if falsy script then
        (Throw (Error "Failed to generate a script. The response is empty."),
         log w [EvGenerateContent prompt])
      else
        uploadToGCPStorage B name "text/plain" (Text (default "" script)) Temp
          (log w [EvGenerateContent prompt])
  end.
Proof.
  intros prompt. unfold generateVideoScriptUsingGemini. fold prompt.
  unfold bind at 1 2, emit, await. simpl.
  destruct (generateContent B prompt) as [script|e]; [|done].
  unfold ret at 1. destruct (falsy script); [done|].
  unfold bind, ret. by destruct (uploadToGCPStorage _ _ _ _ _ _) as [[?|?|] ?].
Qed.

Lemma generateVoiceoverUsingGoogleTTS_eq B scriptUrl name w :
  generateVoiceoverUsingGoogleTTS B scriptUrl name w =
  match fetch B scriptUrl with
  | Rejected e => (Throw e, log w [EvFetch scriptUrl])
  | Resolved response =>
      if negb (ok response) then
        (Throw (Error ("Failed to fetch script. Status: " +:+ pretty (fetch_status response) +:+
                       ", Error: " +:+ statusText response)),
         log w [EvFetch scriptUrl])
      else if falsy (Some (text response)) then
        (Throw (Error "Failed to fetch script. The response is empty."),
         log w [EvFetch scriptUrl])
      else
        let calls := [EvFetch scriptUrl; EvSynthesizeSpeech (text response)] in
        match synthesizeSpeech B (text response) with
        | Rejected e => (Throw e, log w calls)
        | Resolved None => (Throw (Error "Audio content is empty."), log w calls)
        | Resolved (Some audio) =>
            uploadToGCPStorage B name "audio/mpeg" (Bytes audio) Temp (log w calls)
        end
  end.
Proof.
  unfold generateVoiceoverUsingGoogleTTS.
  unfold bind at 1 2, emit, await. simpl.
  destruct (fetch B scriptUrl) as [response|e]; [|done].
  unfold ret at 1. destruct (ok response); simpl; [|done].
  destruct (bool_decide (text response = "")); [done|].
  unfold bind at 1 2, emit, await, log. simpl. rewrite <- app_assoc. simpl.
  destruct (synthesizeSpeech B (text response)) as [[audio|]|e]; try done.
  unfold ret at 1, bind, ret. by destruct (uploadToGCPStorage _ _ _ _ _ _) as [[?|?|] ?].
Qed.

Lemma falsy_Some_false s : s ≠ "" -> falsy (Some s) = false.
Proof. intros Hs. simpl. by rewrite bool_decide_eq_false_2. Qed.

(** The code after the guard: the three stages in a row, the first error
    thrown ending the run. *)
Lemma after_guard_eq fuel B sp ph w :
  after_guard fuel B sp ph w =
  match generateVideoScriptUsingGemini B sp (tempScriptName_of B) w with
  | (Ret url, w1) =>
      match generateVoiceoverUsingGoogleTTS B url (tempAudioName_of B) w1 with
      | (Ret url', w2) =>
          match generateVideoFromRunwayML fuel B sp ph (tempVideoName_of B) w2 with
          | (Ret url'', w3) => (Some (success_answer url url' url''), w3)
          | (Throw e, w3) => (Some (failure_answer e), w3)
          | (Running, w3) => (None, w3)
          end
      | (Throw e, w2) => (Some (failure_answer e), w2)
      | (Running, w2) => (None, w2)
      end
  | (Throw e, w1) => (Some (failure_answer e), w1)
  | (Running, w1) => (None, w1)
  end.
Proof.
  unfold after_guard, bind, ret.
  destruct (generateVideoScriptUsingGemini _ _ _ _) as [[url|e|] w1]; try done.
  destruct (generateVoiceoverUsingGoogleTTS _ _ _ _) as [[url'|e|] w2]; try done.
  by destruct (generateVideoFromRunwayML _ _ _ _ _ _) as [[url''|e|] w3].
Qed.

(** The handler, by its request: a body that does not parse and the null
    body end in the [catch], a body that fails the guard is answered at
    once, any other body goes through the stages. *)
Lemma POST_unfold fuel B request_json w :
  POST fuel B request_json w =
  match request_json with
  | Rejected e => (Some (failure_answer e), w)
  | Resolved body =>
      if is_null body then (Some (failure_answer null_body_error), w)
      else if falsy_value (member "sports" body) || falsy_value (member "photo" body) then
        (Some params_answer, w)
      else
        after_guard fuel B (template (member "sports" body))
          (template (member "photo" body)) w
  end.
Proof.
  unfold POST, POST_try. unfold bind at 1, await.
  destruct request_json as [body|e]; [|done]. unfold ret at 1.
  unfold bind at 1, destructure.
  destruct body; try done; unfold ret at 1; cbn [sports photo is_null];
    by destruct (falsy_value _ || falsy_value _).
Qed.

Lemma falsy_value_JString s : falsy_value (Some (JString s)) = falsy (Some s).
Proof. done. Qed.

(** The handler on the body the page posts, with both fields non-empty. *)
Lemma POST_eq fuel B sp ph w :
  sp ≠ "" -> ph ≠ "" ->
  POST fuel B (Resolved (request_body sp ph)) w =
  match generateVideoScriptUsingGemini B sp (tempScriptName_of B) w with
  | (Ret url, w1) =>
      match generateVoiceoverUsingGoogleTTS B url (tempAudioName_of B) w1 with
      | (Ret url', w2) =>
          match generateVideoFromRunwayML fuel B sp ph (tempVideoName_of B) w2 with
          | (Ret url'', w3) => (Some (success_answer url url' url''), w3)
          | (Throw e, w3) => (Some (failure_answer e), w3)
          | (Running, w3) => (None, w3)
          end
      | (Throw e, w2) => (Some (failure_answer e), w2)
      | (Running, w2) => (None, w2)
      end
  | (Throw e, w1) => (Some (failure_answer e), w1)
  | (Running, w1) => (None, w1)
  end.
Proof.
  intros Hsp Hph. rewrite POST_unfold. cbn [is_null request_body].
  change (member "sports" (request_body sp ph)) with (Some (JString sp)).
  change (member "photo" (request_body sp ph)) with (Some (JString ph)).
  rewrite !falsy_value_JString, (falsy_Some_false _ Hsp), (falsy_Some_false _ Hph).
  cbn [orb template to_string]. apply after_guard_eq.
Qed.

Lemma uploadToGCPStorage_Ret B fileName fileType fileContent cat w url w' :
  uploadToGCPStorage B fileName fileType fileContent cat w = (Ret url, w') ->
  let filePath := directory_of cat +:+ "/" +:+ fileName in
  url = publicUrl_of filePath /\
  file_save B filePath fileType fileContent = Resolved tt /\
  file_makePublic B filePath = Resolved tt /\
  w' = {| store := <[filePath := stored fileType fileContent true]> (store w);
          trace := trace w ++ [EvSave filePath fileType fileContent;
                               EvMakePublic filePath] |}.
Proof.
  rewrite uploadToGCPStorage_eq. simpl.
  destruct (file_save B _ _ _) as [[]|?]; [|done].
  destruct (file_makePublic B _) as [[]|?]; [|done].
  by intros [= <- <-].
Qed.

Lemma generateVideoScriptUsingGemini_Ret B sp name w url w1 :
  generateVideoScriptUsingGemini B sp name w = (Ret url, w1) ->
  let filePath := "temp/" +:+ name in
  exists script,
    generateContent B (prompt_of sp) = Resolved (Some script) /\ script ≠ "" /\
    url = publicUrl_of filePath /\
    file_save B filePath "text/plain" (Text script) = Resolved tt /\
    file_makePublic B filePath = Resolved tt /\
    w1 = {| store := <[filePath := stored "text/plain" (Text script) true]> (store w);
            trace := trace w ++ [EvGenerateContent (prompt_of sp);
                                 EvSave filePath "text/plain" (Text script);
                                 EvMakePublic filePath] |}.
Proof.
  rewrite generateVideoScriptUsingGemini_eq. simpl.
  destruct (generateContent B _) as [[script|]|e]; try done.
  simpl. case_bool_decide as Hscript; [done|].
  intros (-> & Hsave & Hpub & ->)%uploadToGCPStorage_Ret.
  exists script. repeat split; try done.
  simpl. by rewrite <- app_assoc.
Qed.

Lemma generateVoiceoverUsingGoogleTTS_Ret B scriptUrl name w url w' :
  generateVoiceoverUsingGoogleTTS B scriptUrl name w = (Ret url, w') ->
  url = publicUrl_of ("temp/" +:+ name).
Proof.
  rewrite generateVoiceoverUsingGoogleTTS_eq.
  repeat case_match; try done. by intros (-> & _)%uploadToGCPStorage_Ret.
Qed.

Lemma generateVideoFromRunwayML_Ret fuel B sp ph name w url w' :
  generateVideoFromRunwayML fuel B sp ph name w = (Ret url, w') ->
  url = publicUrl_of ("temp/" +:+ name).
Proof.
  rewrite generateVideoFromRunwayML_eq.
  destruct (imageToVideo_create B ph); [|done].
  destruct (poll _ _ _ _ _) as [[task|e|] w1]; [|done..].
  rewrite after_poll_eq. cbv zeta.
  repeat case_match; try done. by intros (-> & _)%uploadToGCPStorage_Ret.
Qed.

(** ** Fuel *)

(** Observing the video stage for longer does not change a run that has
    ended. *)
Lemma generateVideoFromRunwayML_fuel_mono fuel fuel' B sp ph name w :
  (fuel <= fuel')%nat ->
  fst (generateVideoFromRunwayML fuel B sp ph name w) <> Running ->
  generateVideoFromRunwayML fuel' B sp ph name w =
  generateVideoFromRunwayML fuel B sp ph name w.
Proof.
  intros Hle Hend. rewrite !generateVideoFromRunwayML_eq in *.
  destruct (imageToVideo_create B ph) as [taskId|e]; [|done].
  rewrite (poll_fuel_mono fuel fuel'); [done|done|].
  intros Hrun. destruct (poll fuel B taskId 0 _) as [[task|e|] w1]; try done.
Qed.

(** An answer of the handler does not depend on how long it is observed. *)
Lemma POST_fuel_mono fuel fuel' B request_json w r :
  (fuel <= fuel')%nat ->
  fst (POST fuel B request_json w) = Some r ->
  POST fuel' B request_json w = POST fuel B request_json w.
Proof.
  intros Hle. rewrite !POST_unfold.
  destruct request_json as [body|e]; [|done].
  destruct (is_null body); [done|].
  destruct (falsy_value _ || falsy_value _); [done|].
  rewrite !after_guard_eq.
  destruct (generateVideoScriptUsingGemini _ _ _ _) as [[url|e|] w1]; try done.
  destruct (generateVoiceoverUsingGoogleTTS _ _ _ _) as [[url'|e|] w2]; try done.
  intros Hans.
  rewrite (generateVideoFromRunwayML_fuel_mono fuel fuel'); [done|done|].
  intros Hrun.
  destruct (generateVideoFromRunwayML fuel _ _ _ _ _) as [[url''|e|] w3]; try done.
Qed.

(** ** The answers *)

Lemma data_of_success_answer url url' url'' :
  data_of (success_answer url url' url'') =
  Some {| success := true; scriptURL := url; voiceoverURL := url'; videoURL := url'' |}.
Proof. reflexivity. Qed.

Lemma data_of_failure_answer e : data_of (failure_answer e) = None.
Proof. reflexivity. Qed.

Lemma data_of_params_answer : data_of params_answer = None.
Proof. reflexivity. Qed.

(** ** C1: how often the loop queries and fetches *)

(** C1, as amended.  When the backend reports RUNNING [n] times and then
    SUCCEEDED, the video stage makes exactly [n + 1] status queries, and
    exactly one output fetch if the task carries a non-empty first output
    and none otherwise.  When the backend reports FAILED, after [n] answers
    of any status that is not terminal, it throws "Video generation
    failed." after [n + 1] status queries and makes no output fetch and no
    upload. *)
Theorem polling_counts fuel B sp ph name w taskId n task :
  imageToVideo_create B ph = Resolved taskId ->
  tasks_retrieve B taskId n = Resolved task ->
  (n <= fuel)%nat ->
  let run := generateVideoFromRunwayML fuel B sp ph name w in
  let evs := emitted w (snd run) in
  ((forall j, (j < n)%nat -> reports B taskId "RUNNING" j) ->
   status task = "SUCCEEDED" ->
     count_events is_retrieve evs = S n /\
     count_events is_https_get evs =
       if falsy (first_output task) then O else 1%nat) /\
  (pending_for B taskId 0 n ->
   status task = "FAILED" ->
     fst run = Throw (Error "Video generation failed.") /\
     count_events is_retrieve evs = S n /\
     count_events is_https_get evs = O /\
     count_events is_upload evs = O).
Proof.
  intros Hcreate Hlast Hfuel run evs. subst evs run. split; intros Hbefore Hst.
  - rewrite (generateVideoFromRunwayML_running_then _ _ _ _ _ _ taskId n task);
      try done; [|by rewrite Hst].
    rewrite after_poll_eq, Hst. simpl.
    destruct (falsy (first_output task)).
    { simpl. emitted_norm. split; count_norm. }
    rewrite fetchVideoAsBuffer_eq. simpl.
    destruct (download_of B _) as [videoBuffer|e|].
    + rewrite uploadToGCPStorage_eq. simpl.
      repeat case_match; simpl; emitted_norm; split; count_norm.
    + simpl. emitted_norm. split; count_norm.
    + simpl. emitted_norm. split; count_norm.
  - rewrite (generateVideoFromRunwayML_pending_then _ _ _ _ _ _ taskId n task);
      try done; [|by rewrite Hst].
    rewrite after_poll_eq, Hst. simpl.
    split; [done|]. emitted_norm. repeat split; count_norm.
Qed.

(** The scenario of the specification, RUNNING, RUNNING, SUCCEEDED, and a
    job that is PENDING, then THROTTLED, then FAILED. *)
Lemma polling_counts_witness :
  (count_events is_retrieve
     (emitted w0 (snd (generateVideoFromRunwayML 2 cricket "cricket" "photo" "video-1.mp4" w0)))
   = 3%nat /\
   count_events is_https_get
     (emitted w0 (snd (generateVideoFromRunwayML 2 cricket "cricket" "photo" "video-1.mp4" w0)))
   = 1%nat) /\
  (fst (generateVideoFromRunwayML 2 queued_then_failed "cricket" "photo" "video-1.mp4" w0)
   = Throw (Error "Video generation failed.") /\
   count_events is_https_get
     (emitted w0
        (snd (generateVideoFromRunwayML 2 queued_then_failed "cricket" "photo" "video-1.mp4" w0)))
   = O).
Proof.
  assert (Hfuel : (2 <= 2)%nat) by lia.
  split.
  - assert (Hrun : forall j, (j < 2)%nat -> reports cricket "42" "RUNNING" j).
    { intros [|[|j]] Hj; [by eexists | by eexists | lia]. }
    destruct (polling_counts 2 cricket "cricket" "photo" "video-1.mp4" w0 "42" 2
                {| status := "SUCCEEDED"; output := Some ["https://cdn/example.mp4"] |}
                eq_refl eq_refl Hfuel) as [Hok _].
    exact (Hok Hrun eq_refl).
  - assert (Hpend : pending_for queued_then_failed "42" 0 2).
    { intros [|[|j]] Hj; [by eexists | by eexists | lia]. }
    destruct (polling_counts 2 queued_then_failed "cricket" "photo" "video-1.mp4" w0 "42" 2
                {| status := "FAILED"; output := None |}
                eq_refl eq_refl Hfuel) as [_ Hfailed].
    destruct (Hfailed Hpend eq_refl) as (Hthrow & _ & Hget & _).
    exact (conj Hthrow Hget).
Defined.

(** C1 as stated fails: the backend reports RUNNING twice and then
    SUCCEEDED, but the task has no output; the three status queries are
    made and no output fetch follows. *)
Lemma succeeded_without_output_is_not_fetched :
  running_then no_output "42" 2 {| status := "SUCCEEDED"; output := None |} /\
  let evs :=
    emitted w0 (snd (generateVideoFromRunwayML 2 no_output "cricket" "photo" "video-1.mp4" w0)) in
  count_events is_retrieve evs = 3%nat /\
  count_events is_https_get evs <> 1%nat.
Proof.
  split.
  - split; [|reflexivity].
    intros [|[|j]] Hj; [by eexists | by eexists | lia].
  - vm_compute. split; [reflexivity | discriminate].
Qed.

(** ** C2: the three URLs of a successful run *)

(** C2.  For a non-empty sport and a non-empty photo, an answer that
    carries data carries three non-empty URLs, and each has the request id
    (the clock reading in decimal) in its path:
    temp/script-{id}.txt, temp/audio-{id}.mp3 and temp/video-{id}.mp4 of
    the bucket. *)
Theorem successful_run_urls fuel B sp ph w r w' d :
  sp ≠ "" -> ph ≠ "" ->
  POST fuel B (Resolved (request_body sp ph)) w = (Some r, w') ->
  data_of r = Some d ->
  let id := pretty (Date_now B) in
  r = NextResponse_json (Envelope 200 (Some d) None) None /\ success d = true /\
  scriptURL d = "https://storage.googleapis.com/sehban/temp/script-" +:+ id +:+ ".txt" /\
  voiceoverURL d = "https://storage.googleapis.com/sehban/temp/audio-" +:+ id +:+ ".mp3" /\
  videoURL d = "https://storage.googleapis.com/sehban/temp/video-" +:+ id +:+ ".mp4" /\
  scriptURL d ≠ "" /\ voiceoverURL d ≠ "" /\ videoURL d ≠ "".
Proof.
  intros Hsp Hph Hpost Hdata id. rewrite POST_eq in Hpost by done.
  destruct (generateVideoScriptUsingGemini _ _ _ _) as [[url|e|] w1] eqn:Hscript;
    [|by injection Hpost as <- <-|done].
  destruct (generateVoiceoverUsingGoogleTTS _ _ _ _) as [[url'|e|] w2] eqn:Hvoice;
    [|by injection Hpost as <- <-|done].
  destruct (generateVideoFromRunwayML _ _ _ _ _ _) as [[url''|e|] w3] eqn:Hvideo;
    [|by injection Hpost as <- <-|done].
  injection Hpost as <- <-. rewrite data_of_success_answer in Hdata.
  injection Hdata as <-.
  apply generateVideoScriptUsingGemini_Ret in Hscript as (_ & _ & _ & -> & _).
  apply generateVoiceoverUsingGoogleTTS_Ret in Hvoice as ->.
  apply generateVideoFromRunwayML_Ret in Hvideo as ->.
  by repeat split.
Qed.

Lemma successful_run_urls_witness :
  exists r w' d,
    POST 2 cricket (Resolved cricket_body) w0 = (Some r, w') /\
    data_of r = Some d /\
    scriptURL d = "https://storage.googleapis.com/sehban/temp/script-1700000000000.txt" /\
    voiceoverURL d = "https://storage.googleapis.com/sehban/temp/audio-1700000000000.mp3" /\
    videoURL d = "https://storage.googleapis.com/sehban/temp/video-1700000000000.mp4".
Proof.
  assert (Hsp : "cricket" ≠ "") by discriminate.
  assert (Hph : "data:image/jpeg;base64,/9j/4AAQ" ≠ "") by discriminate.
  eexists _, _, _.
  split; [vm_compute; reflexivity|]. split; [reflexivity|].
  destruct (successful_run_urls 2 cricket "cricket" "data:image/jpeg;base64,/9j/4AAQ" w0
              _ _ _ Hsp Hph ltac:(vm_compute; reflexivity) eq_refl)
    as (_ & _ & Hs & Hv & Hw & _).
  split; [exact Hs | split; [exact Hv | exact Hw]].
Defined.

(** ** C3: missing parameters *)

(** C3.  When [sports] or [photo] is missing or empty, or is any other
    falsy value, the handler answers [{ error: 'issue in params' }] with
    status 400, and the world is the one it started from: no call to any
    backend was made and the bucket is untouched.  The body is any JSON
    value but null, which has no members to read. *)
Theorem missing_params_are_rejected fuel B body w :
  is_null body = false ->
  falsy_value (member "sports" body) = true \/ falsy_value (member "photo" body) = true ->
  POST fuel B (Resolved body) w =
    (Some params_answer, w) /\
  json params_answer = JObject [("error", JString "issue in params")] /\
  http_status params_answer = 400 /\
  emitted w (snd (POST fuel B (Resolved body) w)) = [].
Proof.
  intros Hnull Hfalsy.
  assert (Heq : POST fuel B (Resolved body) w =
    (Some params_answer, w)).
  { rewrite POST_unfold, Hnull.
    destruct Hfalsy as [-> | ->]; [done|]. by rewrite orb_true_r. }
  split; [done|]. split; [done|]. split; [done|].
  rewrite Heq. simpl. apply emitted_app. by rewrite app_nil_r.
Qed.

Lemma missing_params_are_rejected_witness :
  POST 2 cricket (Resolved (request_body "" "data:image/png;base64,iVBOR")) w0 =
    (Some params_answer, w0) /\
  POST 2 cricket (Resolved (JObject [("sports", JString "cricket")])) w0 =
    (Some params_answer, w0).
Proof.
  split.
  - apply (missing_params_are_rejected 2 cricket
             (request_body "" "data:image/png;base64,iVBOR") w0); [reflexivity|].
    left. reflexivity.
  - apply (missing_params_are_rejected 2 cricket
             (JObject [("sports", JString "cricket")]) w0); [reflexivity|].
    right. reflexivity.
Defined.

(** ** C4: a task that never finishes *)

(** C4, as amended.  When the backend never reports a terminal status, the
    video stage does not end and no timeout is raised: however many rounds
    the loop is given, it is still running after them, with one more status
    query made for each round. *)
Theorem polling_never_times_out fuel B sp ph name w taskId :
  imageToVideo_create B ph = Resolved taskId ->
  (forall k, exists task, tasks_retrieve B taskId k = Resolved task /\
                          terminal (status task) = false) ->
  generateVideoFromRunwayML fuel B sp ph name w =
    (Running, log w (EvImageToVideo ph :: poll_events taskId (S fuel))) /\
  count_events is_retrieve
    (emitted w (snd (generateVideoFromRunwayML fuel B sp ph name w))) = S fuel.
Proof.
  intros Hcreate Hnever.
  assert (Heq : generateVideoFromRunwayML fuel B sp ph name w =
    (Running, log w (EvImageToVideo ph :: poll_events taskId (S fuel)))).
  { rewrite generateVideoFromRunwayML_eq, Hcreate, poll_diverges.
    - by rewrite log_log.
    - intros n j _. apply Hnever. }
  split; [done|]. rewrite Heq. simpl snd. rewrite emitted_log.
  simpl. by rewrite count_retrieve_poll_events.
Qed.

Lemma polling_never_times_out_witness :
  generateVideoFromRunwayML 3 never_done "cricket" "photo" "video-1.mp4" w0 =
    (Running, log w0 (EvImageToVideo "photo" :: poll_events "42" 4)).
Proof.
  apply (polling_never_times_out 3 never_done "cricket" "photo" "video-1.mp4" w0 "42").
  - reflexivity.
  - intros k. exists running_task. split; reflexivity.
Defined.

(** Once the script and the voiceover are stored, a job that is created and
    never reports a terminal status keeps the handler from answering. *)
Lemma POST_never_answers fuel B sp ph w url w1 url' w2 taskId :
  sp ≠ "" -> ph ≠ "" ->
  generateVideoScriptUsingGemini B sp (tempScriptName_of B) w = (Ret url, w1) ->
  generateVoiceoverUsingGoogleTTS B url (tempAudioName_of B) w1 = (Ret url', w2) ->
  imageToVideo_create B ph = Resolved taskId ->
  (forall k, exists task, tasks_retrieve B taskId k = Resolved task /\
                          terminal (status task) = false) ->
  POST fuel B (Resolved (request_body sp ph)) w =
    (None, log w2 (EvImageToVideo ph :: poll_events taskId (S fuel))).
Proof.
  intros Hsp Hph Hscript Hvoice Hcreate Hnever.
  rewrite POST_eq, Hscript, Hvoice by done.
  rewrite generateVideoFromRunwayML_eq, Hcreate, poll_diverges.
  - by rewrite log_log.
  - intros n j _. apply Hnever.
Qed.

(** C4 as stated fails: on a task that stays RUNNING there is no number of
    rounds after which the video stage has thrown an error, a timeout or
    any other, and none after which the handler has answered. *)
Lemma never_done_never_answers :
  (~ exists fuel e,
       fst (generateVideoFromRunwayML fuel never_done "cricket" "photo" "video-1.mp4" w0)
       = Throw e) /\
  (~ exists fuel r, fst (POST fuel never_done (Resolved cricket_body) w0) = Some r).
Proof.
  assert (Hnever : forall k, exists task,
            tasks_retrieve never_done "42" k = Resolved task /\
            terminal (status task) = false).
  { intros k. exists running_task. split; reflexivity. }
  split.
  - intros (fuel & e & H).
    rewrite generateVideoFromRunwayML_eq in H. simpl in H.
    rewrite poll_diverges in H; [discriminate|].
    intros n j _. apply Hnever.
  - intros (fuel & r & H). unfold cricket_body in H.
    pose proof (POST_never_answers fuel never_done
                  "cricket" "data:image/jpeg;base64,/9j/4AAQ" w0 _ _ _ _ "42"
                  ltac:(discriminate) ltac:(discriminate)
                  ltac:(vm_compute; reflexivity) ltac:(vm_compute; reflexivity)
                  eq_refl Hnever) as Hpost.
    rewrite Hpost in H. discriminate.
Qed.

(** ** C5: the voiceover stage runs on the uploaded script *)

Lemma uploadToGCPStorage_calls B fileName fileType fileContent cat w :
  exists evs,
    trace (snd (uploadToGCPStorage B fileName fileType fileContent cat w)) = trace w ++ evs /\
    Forall (fun e => is_upload e = true) evs.
Proof.
  rewrite uploadToGCPStorage_eq. cbv zeta.
  repeat case_match; simpl; (eexists; split; [reflexivity|]; by repeat constructor).
Qed.

Lemma generateVideoScriptUsingGemini_calls B sp name w :
  exists evs,
    trace (snd (generateVideoScriptUsingGemini B sp name w)) = trace w ++ evs /\
    Forall (fun e => is_fetch e = false) evs.
Proof.
  rewrite generateVideoScriptUsingGemini_eq. cbv zeta.
  destruct (generateContent B _) as [script|e];
    [destruct (falsy script)|]; simpl;
    try (eexists; split; [reflexivity|]; by repeat constructor).
  destruct (uploadToGCPStorage_calls B name "text/plain" (Text (default "" script)) Temp
              (log w [EvGenerateContent (prompt_of sp)])) as (evs & -> & Hevs).
  simpl. rewrite <- app_assoc. eexists. split; [reflexivity|].
  constructor; [done|]. eapply Forall_impl; [exact Hevs|]. by intros [].
Qed.

Lemma generateVoiceoverUsingGoogleTTS_calls B scriptUrl name w :
  exists rest,
    trace (snd (generateVoiceoverUsingGoogleTTS B scriptUrl name w))
    = trace w ++ EvFetch scriptUrl :: rest /\
    Forall (fun e => is_fetch e = false) rest.
Proof.
  rewrite generateVoiceoverUsingGoogleTTS_eq. cbv zeta.
  destruct (fetch B scriptUrl) as [response|e];
    [destruct (negb (ok response)); [|destruct (falsy (Some (text response)));
       [|destruct (synthesizeSpeech B (text response)) as [[audio|]|e]]]|]; simpl;
    try (eexists; split; [reflexivity|]; by repeat constructor).
  destruct (uploadToGCPStorage_calls B name "audio/mpeg" (Bytes audio) Temp
              (log w [EvFetch scriptUrl; EvSynthesizeSpeech (text response)]))
    as (evs & -> & Hevs).
  simpl. rewrite <- app_assoc. eexists. split; [reflexivity|].
  constructor; [done|]. eapply Forall_impl; [exact Hevs|]. by intros [].
Qed.

Lemma Forall_poll_events (P : Event -> Prop) taskId n :
  P (EvSetTimeout 10000) -> P (EvTasksRetrieve taskId) ->
  Forall P (poll_events taskId n).
Proof. intros Hs Hr. induction n; simpl; by repeat constructor. Qed.

Lemma generateVideoFromRunwayML_no_fetch fuel B sp ph name w :
  exists evs,
    trace (snd (generateVideoFromRunwayML fuel B sp ph name w)) = trace w ++ evs /\
    Forall (fun e => is_fetch e = false) evs.
Proof.
  destruct (generateVideoFromRunwayML_calls fuel B sp ph name w) as (evs & Htr & Hshape).
  exists evs. split; [done|].
  destruct Hshape as [[_ ->]|(taskId & n & tail & _ & _ & -> & Htail)].
  - by repeat constructor.
  - constructor; [done|]. apply Forall_app. split.
    + by apply Forall_poll_events.
    + eapply Forall_impl; [exact Htail|]. by intros [].
Qed.

(** A list has at most one element that satisfies [p] when the rest does
    not: the two ways of splitting it there agree. *)
Lemma split_at_unique (p : Event -> bool) l1 : forall pre x y l2 post,
  Forall (fun e => p e = false) l1 -> Forall (fun e => p e = false) l2 ->
  p x = true -> p y = true ->
  pre ++ y :: post = l1 ++ x :: l2 ->
  pre = l1 /\ y = x /\ post = l2.
Proof.
  induction l1 as [|a l1 IH]; intros pre x y l2 post Hl1 Hl2 Hx Hy Heq.
  - destruct pre as [|b pre]; simpl in Heq.
    + by injection Heq as -> ->.
    + injection Heq as -> Heq.
      assert (Hin : y ∈ l2) by (rewrite <- Heq; apply elem_of_app; right; by left).
      rewrite Forall_forall in Hl2. specialize (Hl2 _ Hin). congruence.
  - apply Forall_cons in Hl1 as [Ha Hl1].
    destruct pre as [|b pre]; simpl in Heq.
    + injection Heq as -> _. congruence.
    + injection Heq as -> Heq.
      destruct (IH pre x y l2 post Hl1 Hl2 Hx Hy Heq) as (-> & -> & ->). done.
Qed.

(** After a script stage that returned [url] in the world [w1], what the
    handler does next starts with the fetch of [url], the only fetch. *)
Lemma POST_calls_after_script fuel B sp ph w url w1 :
  sp ≠ "" -> ph ≠ "" ->
  generateVideoScriptUsingGemini B sp (tempScriptName_of B) w = (Ret url, w1) ->
  exists rest,
    trace (snd (POST fuel B (Resolved (request_body sp ph)) w))
    = trace w1 ++ EvFetch url :: rest /\
    Forall (fun e => is_fetch e = false) rest.
Proof.
  intros Hsp Hph Hscript. rewrite POST_eq, Hscript by done.
  destruct (generateVoiceoverUsingGoogleTTS_calls B url (tempAudioName_of B) w1)
    as (rest & Htr & Hrest).
  destruct (generateVoiceoverUsingGoogleTTS _ _ _ _) as [[url'|e|] w2]; simpl in Htr;
    [|by exists rest..].
  destruct (generateVideoFromRunwayML_no_fetch fuel B sp ph (tempVideoName_of B) w2)
    as (evs & Htr' & Hevs).
  exists (rest ++ evs). split.
  - destruct (generateVideoFromRunwayML _ _ _ _ _ _) as [[url''|e|] w3]; simpl in *;
      by rewrite Htr', Htr, <- app_assoc.
  - by apply Forall_app.
Qed.

(** C5.  In every run of the handler, whenever the script is fetched (the
    first thing the voiceover stage does with its argument), the fetched
    URL is the one the script stage returned, the calls made before are
    exactly the script generation and the two calls of the script upload,
    both accepted by the storage service, and the bucket then holds the
    script, public, at the path of that URL. *)
Theorem voiceover_runs_on_the_uploaded_script fuel B sp ph w pre url post :
  sp ≠ "" -> ph ≠ "" ->
  emitted w (snd (POST fuel B (Resolved (request_body sp ph)) w))
    = pre ++ EvFetch url :: post ->
  let filePath := "temp/" +:+ tempScriptName_of B in
  url = publicUrl_of filePath /\
  exists script w1,
    generateVideoScriptUsingGemini B sp (tempScriptName_of B) w = (Ret url, w1) /\
    emitted w w1 = pre /\
    pre = [EvGenerateContent (prompt_of sp);
           EvSave filePath "text/plain" (Text script);
           EvMakePublic filePath] /\
    file_save B filePath "text/plain" (Text script) = Resolved tt /\
    file_makePublic B filePath = Resolved tt /\
    store w1 !! filePath = Some (stored "text/plain" (Text script) true).
Proof.
  intros Hsp Hph Hsplit filePath. subst filePath.
  destruct (generateVideoScriptUsingGemini B sp (tempScriptName_of B) w)
    as [[url0|e|] w1] eqn:Hscript.
  - destruct (POST_calls_after_script fuel B sp ph w url0 w1 Hsp Hph Hscript)
      as (rest & Htr & Hrest).
    pose proof Hscript as Hret.
    apply generateVideoScriptUsingGemini_Ret in Hret
      as (script & _ & _ & -> & Hsave & Hpub & ->).
    simpl in Htr. rewrite <- app_assoc in Htr.
    rewrite (emitted_app _ _ _ Htr) in Hsplit. symmetry in Hsplit.
    apply (split_at_unique is_fetch
             [EvGenerateContent (prompt_of sp);
              EvSave ("temp/" +:+ tempScriptName_of B) "text/plain" (Text script);
              EvMakePublic ("temp/" +:+ tempScriptName_of B)])
      in Hsplit as (-> & [= ->] & ->); try done; [|by repeat constructor].
    split; [done|]. exists script. eexists. split; [done|].
    split; [by apply emitted_app|]. split; [done|]. split; [done|]. split; [done|].
    simpl. by rewrite lookup_insert_eq.
  - destruct (generateVideoScriptUsingGemini_calls B sp (tempScriptName_of B) w)
      as (evs & Htr & Hevs).
    rewrite POST_eq, Hscript in Hsplit by done. rewrite Hscript in Htr. simpl in *.
    rewrite (emitted_app _ _ _ Htr) in Hsplit. subst evs.
    apply Forall_app in Hevs as [_ Hevs]. by apply Forall_cons in Hevs as [? _].
  - destruct (generateVideoScriptUsingGemini_calls B sp (tempScriptName_of B) w)
      as (evs & Htr & Hevs).
    rewrite POST_eq, Hscript in Hsplit by done. rewrite Hscript in Htr. simpl in *.
    rewrite (emitted_app _ _ _ Htr) in Hsplit. subst evs.
    apply Forall_app in Hevs as [_ Hevs]. by apply Forall_cons in Hevs as [? _].
Qed.

Lemma voiceover_runs_on_the_uploaded_script_witness :
  exists script w1,
    generateVideoScriptUsingGemini cricket "cricket" (tempScriptName_of cricket) w0
    = (Ret "https://storage.googleapis.com/sehban/temp/script-1700000000000.txt", w1) /\
    store w1 !! "temp/script-1700000000000.txt"
    = Some (stored "text/plain" (Text script) true).
Proof.
  assert (Hsp : "cricket" ≠ "") by discriminate.
  assert (Hph : "data:image/jpeg;base64,/9j/4AAQ" ≠ "") by discriminate.
  destruct (voiceover_runs_on_the_uploaded_script 2 cricket
              "cricket" "data:image/jpeg;base64,/9j/4AAQ" w0
              [EvGenerateContent (prompt_of "cricket");
               EvSave "temp/script-1700000000000.txt" "text/plain"
                 (Text "Cricket began in southern England");
               EvMakePublic "temp/script-1700000000000.txt"]
              "https://storage.googleapis.com/sehban/temp/script-1700000000000.txt"
              _ Hsp Hph ltac:(vm_compute; reflexivity))
    as (_ & script & w1 & Hscript & _ & _ & _ & _ & Hstore).
  exists script, w1. split; [exact Hscript | exact Hstore].
Defined.

(** ** C6: what a failed stage leaves the caller with *)

Lemma keeps_log B w evs :
  (forall p t c, EvSave p t c ∉ evs) -> keeps B w (log w evs).
Proof.
  intros Hno. exists evs. split; [done|]. split; [done|].
  intros p t c Hin. by destruct (Hno p t c).
Qed.

Lemma keeps_refl B w : keeps B w w.
Proof.
  exists []. split; [by rewrite app_nil_r|]. split; [done|].
  intros p t c Hin. by apply elem_of_nil in Hin.
Qed.

Lemma keeps_trans B w1 w2 w3 : keeps B w1 w2 -> keeps B w2 w3 -> keeps B w1 w3.
Proof.
  intros (evs1 & Htr1 & Hold1 & Hnew1) (evs2 & Htr2 & Hold2 & Hnew2).
  exists (evs1 ++ evs2). split; [by rewrite Htr2, Htr1, app_assoc|]. split.
  - intros p Hp. by apply Hold2, Hold1.
  - intros p t c [Hin|Hin]%elem_of_app Hsave.
    + by apply Hold2, (Hnew1 p t c).
    + by apply (Hnew2 p t c).
Qed.

Lemma keeps_uploadToGCPStorage B fileName fileType fileContent cat w :
  keeps B w (snd (uploadToGCPStorage B fileName fileType fileContent cat w)).
Proof.
  rewrite uploadToGCPStorage_eq. cbv zeta.
  destruct (file_save B _ _ _) as [[]|e] eqn:Hsave.
  - assert (Hins : forall pub,
      keeps B w {| store := <[directory_of cat +:+ "/" +:+ fileName :=
                               stored fileType fileContent pub]> (store w);
                   trace := trace w ++ [EvSave (directory_of cat +:+ "/" +:+ fileName)
                                          fileType fileContent;
                                        EvMakePublic (directory_of cat +:+ "/" +:+ fileName)] |}).
    { intros pub. eexists. split; [reflexivity|]. simpl. split.
      - intros p Hp. rewrite lookup_insert. by case_decide.
      - intros p t c Hin _.
        apply elem_of_cons in Hin as [[= -> -> ->]|Hin].
        + rewrite lookup_insert_eq. by eexists.
        + apply elem_of_cons in Hin as [?|Hin]; [done|]. by apply elem_of_nil in Hin. }
    destruct (file_makePublic B _) as [[]|e]; simpl; by apply Hins.
  - simpl. eexists. split; [reflexivity|]. split; [done|].
    intros p t c Hin Hok.
    apply elem_of_cons in Hin as [[= -> -> ->]|Hin]; [congruence|].
    by apply elem_of_nil in Hin.
Qed.

Lemma keeps_generateVideoScriptUsingGemini B sp name w :
  keeps B w (snd (generateVideoScriptUsingGemini B sp name w)).
Proof.
  assert (Hlog : keeps B w (log w [EvGenerateContent (prompt_of sp)])).
  { apply keeps_log. intros p t c Hin.
    apply elem_of_cons in Hin as [?|Hin]; [done|]. by apply elem_of_nil in Hin. }
  rewrite generateVideoScriptUsingGemini_eq. cbv zeta.
  destruct (generateContent B _) as [script|e]; [destruct (falsy script)|];
    cbn [snd]; try done.
  eapply keeps_trans; [exact Hlog|]. apply keeps_uploadToGCPStorage.
Qed.

Lemma keeps_generateVoiceoverUsingGoogleTTS B scriptUrl name w :
  keeps B w (snd (generateVoiceoverUsingGoogleTTS B scriptUrl name w)).
Proof.
  assert (Hlog1 : keeps B w (log w [EvFetch scriptUrl])).
  { apply keeps_log. intros p t c Hin.
    apply elem_of_cons in Hin as [?|Hin]; [done|]. by apply elem_of_nil in Hin. }
  assert (Hlog2 : forall txt, keeps B w (log w [EvFetch scriptUrl; EvSynthesizeSpeech txt])).
  { intros txt. apply keeps_log. intros p t c Hin.
    apply elem_of_cons in Hin as [?|Hin]; [done|].
    apply elem_of_cons in Hin as [?|Hin]; [done|]. by apply elem_of_nil in Hin. }
  rewrite generateVoiceoverUsingGoogleTTS_eq. cbv zeta.
  destruct (fetch B scriptUrl) as [response|e];
    [destruct (negb (ok response)); [|destruct (falsy (Some (text response)));
       [|destruct (synthesizeSpeech B (text response)) as [[audio|]|e]]]|];
    cbn [snd]; try done; try apply Hlog2.
  eapply keeps_trans; [apply Hlog2|]. apply keeps_uploadToGCPStorage.
Qed.

Lemma keeps_generateVideoFromRunwayML fuel B sp ph name w :
  keeps B w (snd (generateVideoFromRunwayML fuel B sp ph name w)).
Proof.
  assert (Hlog : forall taskId n,
    keeps B w (log w (EvImageToVideo ph :: poll_events taskId n))).
  { intros taskId n. apply keeps_log. intros p t c Hin.
    apply elem_of_cons in Hin as [?|Hin]; [done|].
    pose proof (Forall_poll_events (fun e => forall p t c, e ≠ EvSave p t c) taskId n) as Hpoll.
    rewrite Forall_forall in Hpoll. by eapply Hpoll. }
  rewrite generateVideoFromRunwayML_eq.
  destruct (imageToVideo_create B ph) as [taskId|e].
  2:{ apply (Hlog "" O). }
  destruct (poll_shape fuel B taskId 0 (log w [EvImageToVideo ph])) as (n & _ & Hw & _).
  rewrite log_log in Hw. simpl in Hw.
  destruct (poll fuel B taskId 0 _) as [[task|e|] w1]; simpl in Hw; subst w1;
    [|apply Hlog..].
  eapply keeps_trans; [apply Hlog|].
  rewrite after_poll_eq. cbv zeta.
  case_bool_decide; [|apply keeps_refl].
  destruct (falsy (first_output task)); [apply keeps_refl|].
  assert (Hget : forall w' u, keeps B w' (log w' [EvHttpsGet u])).
  { intros w' u. apply keeps_log. intros p t c Hin.
    apply elem_of_cons in Hin as [?|Hin]; [done|]. by apply elem_of_nil in Hin. }
  destruct (fst (fetchVideoAsBuffer _ _ _)); [|apply Hget..].
  eapply keeps_trans; [apply Hget|]. apply keeps_uploadToGCPStorage.
Qed.

(** The body of an answer to a failure, as it is sent. *)
Lemma json_failure_answer e :
  json (failure_answer e) =
  JObject [("status", JNumber "500"); ("data", JObject []);
           ("errors", JObject match stringify_error e with
                              | Some j => [("error", j)]
                              | None => []
                              end)].
Proof. reflexivity. Qed.

(** X21.  When a stage throws, the handler answers once, with HTTP status
    200 and the envelope of status 500 whose data is empty and whose errors
    hold what JSON makes of the thrown value (the empty object for an Error
    object), so the answer has no URL; the run ends in the world the
    failing stage left, in which nothing was deleted: every object the
    bucket held and every object the run saved is still there. *)
Theorem failed_stage_fails_the_run fuel B sp ph w e w' :
  sp ≠ "" -> ph ≠ "" ->
  stage_failure fuel B sp ph w e w' ->
  let answer := failure_answer e in
  POST fuel B (Resolved (request_body sp ph)) w = (Some answer, w') /\
  http_status answer = 200 /\
  json answer =
    JObject [("status", JNumber "500"); ("data", JObject []);
             ("errors", JObject match stringify_error e with
                                | Some j => [("error", j)]
                                | None => []
                                end)] /\
  data_of answer = None /\
  keeps B w w'.
Proof.
  intros Hsp Hph Hfail answer. subst answer. rewrite POST_eq by done.
  destruct Hfail as [e w1 Hscript | url w1 e w2 Hscript Hvoice
                    | url w1 url' w2 e w3 Hscript Hvoice Hvideo].
  - rewrite Hscript. do 4 (split; [done|]).
    pose proof (keeps_generateVideoScriptUsingGemini B sp (tempScriptName_of B) w) as H.
    by rewrite Hscript in H.
  - rewrite Hscript, Hvoice. do 4 (split; [done|]).
    pose proof (keeps_generateVideoScriptUsingGemini B sp (tempScriptName_of B) w) as H1.
    pose proof (keeps_generateVoiceoverUsingGoogleTTS B url (tempAudioName_of B) w1) as H2.
    rewrite Hscript in H1. rewrite Hvoice in H2. by eapply keeps_trans.
  - rewrite Hscript, Hvoice, Hvideo. do 4 (split; [done|]).
    pose proof (keeps_generateVideoScriptUsingGemini B sp (tempScriptName_of B) w) as H1.
    pose proof (keeps_generateVoiceoverUsingGoogleTTS B url (tempAudioName_of B) w1) as H2.
    pose proof (keeps_generateVideoFromRunwayML fuel B sp ph (tempVideoName_of B) w2) as H3.
    rewrite Hscript in H1. rewrite Hvoice in H2. rewrite Hvideo in H3.
    eapply keeps_trans; [|exact H3]. by eapply keeps_trans.
Qed.

Lemma failed_stage_fails_the_run_witness :
  exists w',
    POST 2 failing (Resolved cricket_body) w0 =
      (Some (failure_answer (Error "Video generation failed.")), w') /\
    keeps failing w0 w'.
Proof.
  assert (Hsp : "cricket" ≠ "") by discriminate.
  assert (Hph : "data:image/jpeg;base64,/9j/4AAQ" ≠ "") by discriminate.
  assert (Hfail : exists w', stage_failure 2 failing "cricket" "data:image/jpeg;base64,/9j/4AAQ"
                    w0 (Error "Video generation failed.") w').
  { eexists. eapply video_failed; vm_compute; reflexivity. }
  destruct Hfail as [w' Hfail]. exists w'.
  destruct (failed_stage_fails_the_run 2 failing "cricket" "data:image/jpeg;base64,/9j/4AAQ"
              w0 _ w' Hsp Hph Hfail) as (Hpost & _ & _ & _ & Hkeeps).
  split; [exact Hpost | exact Hkeeps].
Defined.

(** A download that never settles leaves the handler without an answer,
    however long it is observed. *)
Lemma POST_hung_download fuel B sp ph w url w1 url' w2 taskId n task videoUrl :
  sp ≠ "" -> ph ≠ "" ->
  generateVideoScriptUsingGemini B sp (tempScriptName_of B) w = (Ret url, w1) ->
  generateVoiceoverUsingGoogleTTS B url (tempAudioName_of B) w1 = (Ret url', w2) ->
  imageToVideo_create B ph = Resolved taskId ->
  pending_for B taskId 0 n ->
  tasks_retrieve B taskId n = Resolved task ->
  status task = "SUCCEEDED" ->
  first_output task = Some videoUrl -> videoUrl ≠ "" ->
  download_of B videoUrl = Running ->
  fst (POST fuel B (Resolved (request_body sp ph)) w) = None.
Proof.
  intros Hsp Hph Hscript Hvoice Hcreate Hpend Hlast Hst Hout Hurl Hhung.
  destruct (fst (POST fuel B _ w)) as [r|] eqn:Hans; [exfalso|done].
  pose proof (POST_fuel_mono fuel (fuel + n) B _ w r ltac:(lia) Hans) as Hmono.
  rewrite <- Hmono in Hans. clear Hmono.
  rewrite POST_eq, Hscript, Hvoice in Hans by done.
  rewrite (generateVideoFromRunwayML_pending_then _ _ _ _ _ _ taskId n task) in Hans;
    [|done|done|done|by rewrite Hst|lia].
  rewrite after_poll_eq, Hst, Hout in Hans. simpl in Hans.
  rewrite bool_decide_eq_false_2 in Hans by done.
  rewrite fetchVideoAsBuffer_eq in Hans. simpl in Hans.
  by rewrite Hhung in Hans.
Qed.

(** C6, on the code.  The script stage throws "Failed to generate a
    script. The response is empty." and the video stage throws "Video
    generation failed.", and the handler sends the same body for both,
    [{ status: 500, data: {}, errors: { error: {} } }] with HTTP status 200:
    the message of an Error object is not serialised.  When the download of
    the output gets no response, nothing is answered at all. *)
Theorem failure_answer_carries_no_message :
  let sent := {| json := JObject [("status", JNumber "500"); ("data", JObject []);
                                  ("errors", JObject [("error", JObject [])])];
                 http_status := 200 |} in
  fst (generateVideoScriptUsingGemini empty_script "cricket" (tempScriptName_of empty_script) w0)
    = Throw (Error "Failed to generate a script. The response is empty.") /\
  fst (POST 2 empty_script (Resolved cricket_body) w0) = Some sent /\
  fst (POST 2 failing (Resolved cricket_body) w0) = Some sent /\
  (forall message, failure_answer (Error message) = sent) /\
  (forall fuel, fst (POST fuel no_response (Resolved cricket_body) w0) = None).
Proof.
  split; [vm_compute; reflexivity|].
  split; [vm_compute; reflexivity|].
  split; [vm_compute; reflexivity|].
  split; [reflexivity|].
  intros fuel.
  eapply (POST_hung_download fuel no_response "cricket" "data:image/jpeg;base64,/9j/4AAQ" w0
            _ _ _ _ "42" 2
            {| status := "SUCCEEDED"; output := Some ["https://cdn/example.mp4"] |}
            "https://cdn/example.mp4");
    try done; try (vm_compute; reflexivity).
  intros [|[|j]] Hj; [by eexists | by eexists | lia].
Qed.

(** ** C7: the request id *)

Lemma randomId_of_inj B1 B2 : randomId_of B1 = randomId_of B2 <-> Date_now B1 = Date_now B2.
Proof.
  unfold randomId_of. split; [|by intros ->]. apply (inj pretty).
Qed.

(** C7 fails on the code.  Two requests handled in the same millisecond get
    the same id; both succeed and answer with the same three URLs, and the
    script that the first one stored is replaced by the script of the
    second. *)
Theorem same_millisecond_requests_collide :
  let first := POST 2 cricket (Resolved cricket_body) w0 in
  let second := POST 2 tennis (Resolved tennis_body) (snd first) in
  randomId_of cricket = randomId_of tennis /\
  (exists d, fst first ≫= data_of = Some d /\ fst second ≫= data_of = Some d /\
     scriptURL d = "https://storage.googleapis.com/sehban/temp/script-1700000000000.txt") /\
  content <$> store (snd first) !! "temp/script-1700000000000.txt"
    = Some (Text "Cricket began in southern England") /\
  content <$> store (snd second) !! "temp/script-1700000000000.txt"
    = Some (Text "Tennis grew out of a game of monks") /\
  size (store (snd second)) = size (store (snd first)).
Proof.
  intros first second. split; [reflexivity|]. split; [|split; [|split]].
  - eexists. vm_compute. repeat split; reflexivity.
  - vm_compute. reflexivity.
  - vm_compute. reflexivity.
  - vm_compute. reflexivity.
Qed.

(** ** C8: the URL of an upload *)

(** C8.  The URL that an upload returns is made of the bucket name, the
    directory of the category and the file name, whatever is uploaded and
    whatever the bucket holds.  A second upload under the same name, with
    any other content and type that the storage service accepts, returns
    the same URL and replaces the object: the path then holds the second
    content and the bucket has no other name than before. *)
Theorem upload_url_ignores_content B fileName fileType fileType' fileContent fileContent'
    cat w url w1 :
  let filePath := directory_of cat +:+ "/" +:+ fileName in
  uploadToGCPStorage B fileName fileType fileContent cat w = (Ret url, w1) ->
  file_save B filePath fileType' fileContent' = Resolved tt ->
  url = "https://storage.googleapis.com/sehban/" +:+ directory_of cat +:+ "/" +:+ fileName /\
  (forall w', fst (uploadToGCPStorage B fileName fileType fileContent cat w') = Ret url) /\
  store w1 !! filePath = Some (stored fileType fileContent true) /\
  exists w2,
    uploadToGCPStorage B fileName fileType' fileContent' cat w1 = (Ret url, w2) /\
    store w2 !! filePath = Some (stored fileType' fileContent' true) /\
    dom (store w2) = dom (store w1).
Proof.
  intros filePath Hfirst Hsave'. subst filePath.
  apply uploadToGCPStorage_Ret in Hfirst as (-> & Hsave & Hpub & ->).
  split; [done|]. split; [|split].
  - intros w'. rewrite uploadToGCPStorage_eq. cbv zeta. by rewrite Hsave, Hpub.
  - simpl. by rewrite lookup_insert_eq.
  - eexists. split.
    + rewrite uploadToGCPStorage_eq. cbv zeta. by rewrite Hsave', Hpub.
    + simpl. split; [by rewrite lookup_insert_eq|].
      by rewrite insert_insert_eq, !dom_insert_L.
Qed.

Lemma upload_url_ignores_content_witness :
  exists w2,
    uploadToGCPStorage cricket "script-1.txt" "text/plain" (Text "second") Temp
      (snd (uploadToGCPStorage cricket "script-1.txt" "text/plain" (Text "first") Temp w0))
    = (Ret "https://storage.googleapis.com/sehban/temp/script-1.txt", w2) /\
    store w2 !! "temp/script-1.txt" = Some (stored "text/plain" (Text "second") true).
Proof.
  destruct (upload_url_ignores_content cricket "script-1.txt" "text/plain" "text/plain"
              (Text "first") (Text "second") Temp w0 _ _ eq_refl eq_refl)
    as (_ & _ & _ & w2 & Hsecond & Hstore & _).
  exists w2. split; [exact Hsecond | exact Hstore].
Defined.

(** ** C9: a succeeded task without output, and the download *)




(** ** C10: the loop sleeps before it asks *)

Lemma sleeps_before_queries_quiet ms evs :
  Forall (fun e => is_retrieve e = false) evs -> sleeps_before_queries ms evs.
Proof.
  intros Hq i taskId Hi. rewrite Forall_lookup in Hq.
  by specialize (Hq _ _ Hi).
Qed.

Lemma sleeps_before_queries_cons ms e evs :
  is_retrieve e = false ->
  sleeps_before_queries ms evs -> sleeps_before_queries ms (e :: evs).
Proof.
  intros He Hevs [|i] taskId Hi; simpl in Hi.
  - by injection Hi as ->.
  - destruct (Hevs i taskId Hi) as (j & -> & Hj). by exists (S j).
Qed.

Lemma sleeps_before_queries_round ms taskId evs :
  sleeps_before_queries ms evs ->
  sleeps_before_queries ms (EvSetTimeout ms :: EvTasksRetrieve taskId :: evs).
Proof.
  intros Hevs [|[|i]] tid Hi; simpl in Hi.
  - discriminate.
  - by exists O.
  - destruct (Hevs i tid Hi) as (j & -> & Hj). by exists (S (S j)).
Qed.

Lemma sleeps_before_queries_poll_events taskId n tail :
  Forall (fun e => is_retrieve e = false) tail ->
  sleeps_before_queries 10000 (poll_events taskId n ++ tail).
Proof.
  intros Hq. induction n as [|n IH]; simpl.
  - by apply sleeps_before_queries_quiet.
  - by apply sleeps_before_queries_round.
Qed.

(** C10.  In every run of the video stage each status query comes right
    after a timer of 10000 milliseconds, and once the job is created the
    stage sets that timer and queries the task before anything else, whatever
    the first status is and however short the run is observed. *)
Theorem poll_sleeps_before_it_queries fuel B sp ph name w :
  let evs := emitted w (snd (generateVideoFromRunwayML fuel B sp ph name w)) in
  sleeps_before_queries 10000 evs /\
  forall taskId, imageToVideo_create B ph = Resolved taskId ->
    exists rest,
      evs = EvImageToVideo ph :: EvSetTimeout 10000 :: EvTasksRetrieve taskId :: rest.
Proof.
  intros evs. subst evs.
  destruct (generateVideoFromRunwayML_calls fuel B sp ph name w) as (evs & Htr & Hshape).
  rewrite (emitted_app _ _ _ Htr).
  destruct Hshape as [[[e He] ->]|(taskId & n & tail & Hcreate & Hn & -> & Htail)].
  - split.
    + apply sleeps_before_queries_quiet. by repeat constructor.
    + intros taskId Hcreate. congruence.
  - split.
    + apply sleeps_before_queries_cons; [done|].
      apply sleeps_before_queries_poll_events.
      eapply Forall_impl; [exact Htail|]. by intros [].
    + intros taskId' Hcreate'. assert (taskId' = taskId) as -> by congruence.
      destruct n as [|n]; [lia|]. simpl. by eexists.
Qed.

Lemma poll_sleeps_before_it_queries_witness :
  exists rest,
    emitted w0 (snd (generateVideoFromRunwayML 0 already_done "cricket" "photo" "video-1.mp4" w0))
    = EvImageToVideo "photo" :: EvSetTimeout 10000 :: EvTasksRetrieve "42" :: rest.
Proof.
  destruct (poll_sleeps_before_it_queries 0 already_done "cricket" "photo" "video-1.mp4" w0)
    as [_ Hfirst].
  apply (Hfirst "42"). reflexivity.
Defined.

(** * Further properties of the code *)

(** ** The upload *)

(** X1.  An upload throws exactly the value the storage service rejected
    with; its [catch] rethrows it unchanged.  When the write is rejected
    the ACL call is not made; when the ACL call is rejected both calls were
    made, the write first; a URL is returned only after both calls were
    accepted.  The guard on the bucket name never fires: whatever an upload
    throws comes from the service. *)
Theorem upload_failure_modes B fileName fileType fileContent cat w :
  let filePath := directory_of cat +:+ "/" +:+ fileName in
  let run := uploadToGCPStorage B fileName fileType fileContent cat w in
  (forall e, file_save B filePath fileType fileContent = Rejected e ->
     fst run = Throw e /\
     emitted w (snd run) = [EvSave filePath fileType fileContent]) /\
  (forall e, file_save B filePath fileType fileContent = Resolved tt ->
     file_makePublic B filePath = Rejected e ->
     fst run = Throw e /\
     emitted w (snd run) = [EvSave filePath fileType fileContent; EvMakePublic filePath]) /\
  (forall e, fst run = Throw e ->
     file_save B filePath fileType fileContent = Rejected e \/
     file_save B filePath fileType fileContent = Resolved tt /\
     file_makePublic B filePath = Rejected e) /\
  (forall url, fst run = Ret url ->
     file_save B filePath fileType fileContent = Resolved tt /\
     file_makePublic B filePath = Resolved tt /\
     url = publicUrl_of filePath /\
     emitted w (snd run) = [EvSave filePath fileType fileContent; EvMakePublic filePath]).
Proof.
  intros filePath run. subst run filePath. rewrite uploadToGCPStorage_eq. cbv zeta.
  split; [|split; [|split]].
  - intros e ->. simpl. split; [done|]. by emitted_norm.
  - intros e -> ->. simpl. split; [done|]. by emitted_norm.
  - intros e. destruct (file_save B _ _ _) as [[]|e1]; [|simpl; intros [= ->]; by left].
    destruct (file_makePublic B _) as [[]|e2]; simpl; [done|].
    intros [= ->]. by right.
  - intros url. destruct (file_save B _ _ _) as [[]|e1]; [|done].
    destruct (file_makePublic B _) as [[]|e2]; simpl; [|done].
    intros [= <-]. do 3 (split; [done|]). by emitted_norm.
Qed.

Lemma upload_failure_modes_witness :
  fst (uploadToGCPStorage storage_down "script-1.txt" "text/plain" (Text "first") Temp w0)
  = Throw (Error "ECONNRESET") /\
  emitted w0
    (snd (uploadToGCPStorage acl_denied "script-1.txt" "text/plain" (Text "first") Temp w0))
  = [EvSave "temp/script-1.txt" "text/plain" (Text "first");
     EvMakePublic "temp/script-1.txt"].
Proof.
  split.
  - destruct (upload_failure_modes storage_down "script-1.txt" "text/plain"
                (Text "first") Temp w0) as [Hsave _].
    destruct (Hsave (Error "ECONNRESET") eq_refl) as [Hthrow _]. exact Hthrow.
  - destruct (upload_failure_modes acl_denied "script-1.txt" "text/plain"
                (Text "first") Temp w0) as (_ & Hacl & _).
    destruct (Hacl (Error "403 Forbidden") eq_refl eq_refl) as (_ & Hcalls).
    exact Hcalls.
Defined.

(** X2.  An upload changes the bucket at its own path only, whatever its
    outcome. *)
Theorem upload_touches_only_its_path B fileName fileType fileContent cat w p :
  p ≠ directory_of cat +:+ "/" +:+ fileName ->
  store (snd (uploadToGCPStorage B fileName fileType fileContent cat w)) !! p
  = store w !! p.
Proof.
  intros Hp. rewrite uploadToGCPStorage_eq. cbv zeta.
  repeat case_match; simpl; try done; by rewrite lookup_insert_ne.
Qed.

Lemma upload_touches_only_its_path_witness :
  store (snd (uploadToGCPStorage cricket "audio-1.mp3" "audio/mpeg" (Bytes []) Temp
                (snd (uploadToGCPStorage cricket "script-1.txt" "text/plain"
                        (Text "first") Temp w0))))
    !! "temp/script-1.txt"
  = Some (stored "text/plain" (Text "first") true).
Proof.
  rewrite (upload_touches_only_its_path cricket "audio-1.mp3" "audio/mpeg" (Bytes []) Temp
             _ "temp/script-1.txt").
  - reflexivity.
  - discriminate.
Defined.

Lemma string_app_cons a s t : String a s +:+ t = String a (s +:+ t).
Proof. reflexivity. Qed.

Lemma string_length_app s t :
  String.length (s +:+ t) = (String.length s + String.length t)%nat.
Proof.
  induction s as [|a s IH]; [done|].
  rewrite string_app_cons. simpl. by rewrite IH.
Qed.

Lemma string_app_inj_r s1 : forall s2 t, s1 +:+ t = s2 +:+ t -> s1 = s2.
Proof.
  induction s1 as [|a s1 IH]; intros [|b s2] t Heq.
  - done.
  - apply (f_equal String.length) in Heq.
    rewrite string_app_cons in Heq. simpl in Heq.
    rewrite !string_length_app in Heq. simpl in Heq. lia.
  - apply (f_equal String.length) in Heq.
    rewrite string_app_cons in Heq. simpl in Heq.
    rewrite !string_length_app in Heq. simpl in Heq. lia.
  - rewrite !string_app_cons in Heq. injection Heq as -> Heq. f_equal. by eapply IH.
Qed.

Lemma filePath_inj cat1 name1 cat2 name2 :
  directory_of cat1 +:+ "/" +:+ name1 = directory_of cat2 +:+ "/" +:+ name2 ->
  cat1 = cat2 /\ name1 = name2.
Proof. destruct cat1, cat2; intros [=]; by subst. Qed.

(** X3.  Two uploads return the same URL only for the same category and the
    same file name: distinct artifacts never share a URL, and temp/ and
    reel/ never collide. *)
Theorem upload_urls_are_injective B1 B2 name1 type1 content1 cat1 w1 name2 type2 content2 cat2 w2
    url w1' w2' :
  uploadToGCPStorage B1 name1 type1 content1 cat1 w1 = (Ret url, w1') ->
  uploadToGCPStorage B2 name2 type2 content2 cat2 w2 = (Ret url, w2') ->
  cat1 = cat2 /\ name1 = name2.
Proof.
  intros (Hurl1 & _)%uploadToGCPStorage_Ret (Hurl2 & _)%uploadToGCPStorage_Ret.
  rewrite Hurl1 in Hurl2. unfold publicUrl_of in Hurl2.
  apply filePath_inj. by repeat apply (inj (String.app _)) in Hurl2.
Qed.

Lemma upload_urls_are_injective_witness :
  exists w1' w2',
    uploadToGCPStorage cricket "script-1.txt" "text/plain" (Text "first") Temp w0
    = (Ret "https://storage.googleapis.com/sehban/temp/script-1.txt", w1') /\
    uploadToGCPStorage tennis "script-1.txt" "text/plain" (Text "second") Temp w0
    = (Ret "https://storage.googleapis.com/sehban/temp/script-1.txt", w2') /\
    Temp = Temp /\ "script-1.txt" = "script-1.txt".
Proof.
  eexists _, _.
  split; [vm_compute; reflexivity|]. split; [vm_compute; reflexivity|].
  apply (upload_urls_are_injective cricket tennis
           "script-1.txt" "text/plain" (Text "first") Temp w0
           "script-1.txt" "text/plain" (Text "second") Temp w0
           "https://storage.googleapis.com/sehban/temp/script-1.txt"
           _ _ ltac:(vm_compute; reflexivity) ltac:(vm_compute; reflexivity)).
Defined.

(** Splits a membership in an explicit list of calls into its cases and
    drops the impossible ones. *)
Ltac in_calls H :=
  repeat (apply elem_of_cons in H as [H|H]; [try discriminate H|]);
  try (by apply elem_of_nil in H).

(** ** The stages *)

(** X4.  The script stage returns a URL exactly when Gemini answers with a
    non-empty text and the storage service accepts the write and the ACL
    change.  On a missing or empty text it throws
    "Failed to generate a script. The response is empty." and on a rejected
    generation the rejection, in both cases without any storage call; it
    always ends. *)
Theorem script_stage_returns_iff B sp name w :
  let filePath := "temp/" +:+ name in
  let prompt := prompt_of sp in
  let run := generateVideoScriptUsingGemini B sp name w in
  ((exists url, fst run = Ret url) <->
   exists script,
     generateContent B prompt = Resolved (Some script) /\ script ≠ "" /\
     file_save B filePath "text/plain" (Text script) = Resolved tt /\
     file_makePublic B filePath = Resolved tt) /\
  (forall script, generateContent B prompt = Resolved script -> falsy script = true ->
     run = (Throw (Error "Failed to generate a script. The response is empty."),
            log w [EvGenerateContent prompt])) /\
  (forall e, generateContent B prompt = Rejected e ->
     run = (Throw e, log w [EvGenerateContent prompt])) /\
  fst run <> Running.
Proof.
  intros filePath prompt run. subst run prompt filePath.
  rewrite generateVideoScriptUsingGemini_eq. cbv zeta.
  split; [|split; [|split]].
  - split.
    + intros [url Hret].
      destruct (generateContent B _) as [[script|]|e]; try done.
      simpl in Hret. case_bool_decide as Hscript; [done|].
      rewrite uploadToGCPStorage_eq in Hret. cbv zeta in Hret.
      change (directory_of Temp +:+ "/" +:+ name) with ("temp/" +:+ name) in Hret.
      exists script.
      destruct (file_save B _ _ _) as [[]|?]; [|done].
      by destruct (file_makePublic B _) as [[]|?].
    + intros (script & -> & Hscript & Hsave & Hpub). simpl.
      rewrite bool_decide_eq_false_2 by done.
      rewrite uploadToGCPStorage_eq. cbv zeta.
      change (directory_of Temp +:+ "/" +:+ name) with ("temp/" +:+ name).
      rewrite Hsave, Hpub. by eexists.
  - by intros script -> ->.
  - by intros e ->.
  - destruct (generateContent B _) as [script|e]; [|done].
    destruct (falsy script); [done|].
    rewrite uploadToGCPStorage_eq. cbv zeta. by repeat case_match.
Qed.

Lemma script_stage_returns_iff_witness :
  generateVideoScriptUsingGemini empty_script "cricket" "script-1.txt" w0
  = (Throw (Error "Failed to generate a script. The response is empty."),
     log w0 [EvGenerateContent (prompt_of "cricket")]).
Proof.
  destruct (script_stage_returns_iff empty_script "cricket" "script-1.txt" w0)
    as (_ & Hempty & _).
  apply (Hempty (Some "")); reflexivity.
Defined.

(** X5.  The voiceover stage synthesizes only the text it fetched from the
    script URL, and only when the fetch was ok and the text is not empty;
    it saves only the audio the synthesis returned, as audio/mpeg under its
    own name.  A fetch that is not ok throws the message with the status and
    status text, an empty body throws
    "Failed to fetch script. The response is empty."; both stop the stage
    after the fetch. *)
Theorem voiceover_stage_guards B scriptUrl name w :
  let run := generateVoiceoverUsingGoogleTTS B scriptUrl name w in
  let evs := emitted w (snd run) in
  (forall response, fetch B scriptUrl = Resolved response -> ok response = false ->
     run = (Throw (Error ("Failed to fetch script. Status: " +:+
                          pretty (fetch_status response) +:+
                          ", Error: " +:+ statusText response)),
            log w [EvFetch scriptUrl])) /\
  (forall response, fetch B scriptUrl = Resolved response -> ok response = true ->
     text response = "" ->
     run = (Throw (Error "Failed to fetch script. The response is empty."),
            log w [EvFetch scriptUrl])) /\
  (forall input, EvSynthesizeSpeech input ∈ evs ->
     input ≠ "" /\
     exists response, fetch B scriptUrl = Resolved response /\ ok response = true /\
                      text response = input) /\
  (forall p t c, EvSave p t c ∈ evs ->
     p = "temp/" +:+ name /\ t = "audio/mpeg" /\
     exists response audio,
       fetch B scriptUrl = Resolved response /\
       synthesizeSpeech B (text response) = Resolved (Some audio) /\ c = Bytes audio).
Proof.
  intros run evs. subst evs run.
  rewrite generateVoiceoverUsingGoogleTTS_eq. cbv zeta.
  split; [|split; [|split]].
  - by intros response -> ->.
  - intros response -> -> Htext. simpl. by rewrite bool_decide_eq_true_2.
  - intros input Hin. destruct (fetch B scriptUrl) as [response|e].
    2:{ simpl in Hin. rewrite emitted_log in Hin. in_calls Hin. }
    destruct (ok response) eqn:Hok; simpl in Hin.
    2:{ rewrite emitted_log in Hin. in_calls Hin. }
    case_bool_decide as Htext.
    { simpl in Hin. rewrite emitted_log in Hin. in_calls Hin. }
    assert (input = text response) as ->; [|split; [done|by exists response]].
    destruct (synthesizeSpeech B (text response)) as [[audio|]|e].
    + rewrite uploadToGCPStorage_eq in Hin. cbv zeta in Hin.
      repeat case_match; simpl in Hin; revert Hin; emitted_norm; intros Hin;
        in_calls Hin; by injection Hin.
    + simpl in Hin. rewrite emitted_log in Hin. in_calls Hin. by injection Hin.
    + simpl in Hin. rewrite emitted_log in Hin. in_calls Hin. by injection Hin.
  - intros p t c Hin. destruct (fetch B scriptUrl) as [response|e].
    2:{ simpl in Hin. rewrite emitted_log in Hin. in_calls Hin. }
    destruct (ok response) eqn:Hok; simpl in Hin.
    2:{ rewrite emitted_log in Hin. in_calls Hin. }
    case_bool_decide as Htext.
    { simpl in Hin. rewrite emitted_log in Hin. in_calls Hin. }
    destruct (synthesizeSpeech B (text response)) as [[audio|]|e] eqn:Hsyn.
    + rewrite uploadToGCPStorage_eq in Hin. cbv zeta in Hin.
      assert (Hsave : EvSave p t c = EvSave ("temp/" +:+ name) "audio/mpeg" (Bytes audio)).
      { repeat case_match; simpl in Hin; revert Hin; emitted_norm; intros Hin;
          in_calls Hin; done. }
      injection Hsave as -> -> ->. split; [done|]. split; [done|].
      by exists response, audio.
    + simpl in Hin. rewrite emitted_log in Hin. in_calls Hin.
    + simpl in Hin. rewrite emitted_log in Hin. in_calls Hin.
Qed.

Lemma voiceover_stage_guards_witness :
  generateVoiceoverUsingGoogleTTS script_not_found
    "https://storage.googleapis.com/sehban/temp/script-1.txt" "audio-1.mp3" w0
  = (Throw (Error "Failed to fetch script. Status: 404, Error: Not Found"),
     log w0 [EvFetch "https://storage.googleapis.com/sehban/temp/script-1.txt"]).
Proof.
  destruct (voiceover_stage_guards script_not_found
              "https://storage.googleapis.com/sehban/temp/script-1.txt" "audio-1.mp3" w0)
    as (Hnotok & _).
  apply (Hnotok {| ok := false; fetch_status := 404; statusText := "Not Found"; text := "" |});
    reflexivity.
Defined.

Lemma poll_rejected n : forall fuel B taskId k w e,
  pending_for B taskId k n ->
  tasks_retrieve B taskId (k + n) = Rejected e ->
  (n <= fuel)%nat ->
  poll fuel B taskId k w = (Throw e, log w (poll_events taskId (S n))).
Proof.
  induction n as [|n IH]; intros fuel B taskId k w e Hpend Hlast Hfuel.
  - rewrite Nat.add_0_r in Hlast. by rewrite poll_unfold, Hlast.
  - apply pending_for_S in Hpend as [(t0 & Hk & Ht0) Hpend].
    destruct fuel as [|fuel]; [lia|].
    rewrite poll_unfold, Hk, Ht0.
    rewrite (IH fuel B taskId (S k) _ e); try done; try lia.
    + by rewrite log_log.
    + by rewrite <- Hlast, Nat.add_succ_r.
Qed.

(** X6.  A rejection by RunwayML ends the video stage at once, with the
    rejection as the error.  When the creation of the job is rejected no
    timer is set and no status is queried; when a retrieval is rejected
    after [n] pending answers the stage has made [n + 1] queries and makes
    no other, fetches no output and uploads nothing. *)
Theorem runway_rejection_stops_the_stage fuel B sp ph name w :
  (forall e, imageToVideo_create B ph = Rejected e ->
     generateVideoFromRunwayML fuel B sp ph name w =
       (Throw e, log w [EvImageToVideo ph])) /\
  (forall taskId n e,
     imageToVideo_create B ph = Resolved taskId ->
     pending_for B taskId 0 n ->
     tasks_retrieve B taskId n = Rejected e ->
     (n <= fuel)%nat ->
     generateVideoFromRunwayML fuel B sp ph name w =
       (Throw e, log w (EvImageToVideo ph :: poll_events taskId (S n))) /\
     let evs := emitted w (snd (generateVideoFromRunwayML fuel B sp ph name w)) in
     count_events is_retrieve evs = S n /\
     count_events is_https_get evs = O /\
     count_events is_upload evs = O).
Proof.
  split.
  - intros e Hcreate. by rewrite generateVideoFromRunwayML_eq, Hcreate.
  - intros taskId n e Hcreate Hpend Hrej Hfuel.
    assert (Heq : generateVideoFromRunwayML fuel B sp ph name w =
              (Throw e, log w (EvImageToVideo ph :: poll_events taskId (S n)))).
    { rewrite generateVideoFromRunwayML_eq, Hcreate.
      rewrite (poll_rejected n fuel B taskId 0 _ e); try done.
      by rewrite log_log. }
    split; [done|]. rewrite Heq. cbn [snd]. rewrite emitted_log.
    repeat split; count_norm.
Qed.

Lemma runway_rejection_stops_the_stage_witness :
  generateVideoFromRunwayML 5 retrieve_breaks "cricket" "photo" "video-1.mp4" w0 =
    (Throw (Error "429 Too Many Requests"),
     log w0 (EvImageToVideo "photo" :: poll_events "42" 2)).
Proof.
  destruct (runway_rejection_stops_the_stage 5 retrieve_breaks
              "cricket" "photo" "video-1.mp4" w0) as [_ Hretrieve].
  assert (Hpend : pending_for retrieve_breaks "42" 0 1).
  { intros [|j] Hj; [|lia]. exists running_task. split; reflexivity. }
  assert (Hfuel : (1 <= 5)%nat) by lia.
  destruct (Hretrieve "42" 1%nat (Error "429 Too Many Requests")
              eq_refl Hpend eq_refl Hfuel) as [Heq _].
  exact Heq.
Defined.

(** What a run of the loop that hands a task on has seen. *)
Lemma poll_Ret fuel : forall B taskId k w task w',
  poll fuel B taskId k w = (Ret task, w') ->
  exists n, (n <= fuel)%nat /\
    pending_for B taskId k n /\
    tasks_retrieve B taskId (k + n) = Resolved task /\
    terminal (status task) = true /\
    w' = log w (poll_events taskId (S n)).
Proof.
  induction fuel as [|fuel IH]; intros B taskId k w task w'; rewrite poll_unfold.
  - destruct (tasks_retrieve B taskId k) as [t|e] eqn:Hk; [|done].
    destruct (terminal (status t)) eqn:Ht; [|done].
    intros [= <- <-]. exists O. rewrite Nat.add_0_r.
    split; [lia|]. split; [intros j Hj; lia|]. done.
  - destruct (tasks_retrieve B taskId k) as [t|e] eqn:Hk; [|done].
    destruct (terminal (status t)) eqn:Ht.
    + intros [= <- <-]. exists O. rewrite Nat.add_0_r.
      split; [lia|]. split; [intros j Hj; lia|]. done.
    + intros (n & Hn & Hpend & Hlast & Hterm & ->)%IH.
      exists (S n). split; [lia|]. split; [|split; [|split]].
      * intros [|j] Hj.
        -- exists t. by rewrite Nat.add_0_r.
        -- destruct (Hpend j) as (t' & Hj' & Ht'); [lia|].
           exists t'. by rewrite Nat.add_succ_r.
      * by rewrite Nat.add_succ_r.
      * done.
      * by rewrite log_log.
Qed.

(** What a video stage that returned has done. *)
Lemma generateVideoFromRunwayML_Ret_inv fuel B sp ph name w url w' :
  generateVideoFromRunwayML fuel B sp ph name w = (Ret url, w') ->
  exists taskId n task videoUrl download,
    imageToVideo_create B ph = Resolved taskId /\
    (n <= fuel)%nat /\ pending_for B taskId 0 n /\
    tasks_retrieve B taskId n = Resolved task /\
    status task = "SUCCEEDED" /\
    first_output task = Some videoUrl /\ videoUrl ≠ "" /\
    https_get B videoUrl = Responded download /\
    statusCode download = 200 /\
    finish download = OnEnd /\
    url = publicUrl_of ("temp/" +:+ name) /\
    w' = {| store := <["temp/" +:+ name :=
                        stored "video/mp4" (Bytes (concat (chunks download))) true]> (store w);
            trace := trace w ++ EvImageToVideo ph :: poll_events taskId (S n) ++
                       [EvHttpsGet videoUrl;
                        EvSave ("temp/" +:+ name) "video/mp4"
                          (Bytes (concat (chunks download)));
                        EvMakePublic ("temp/" +:+ name)] |}.
Proof.
  rewrite generateVideoFromRunwayML_eq.
  destruct (imageToVideo_create B ph) as [taskId|e]; [|done].
  destruct (poll _ _ _ _ _) as [[task|e|] w1] eqn:Hpoll; [|done..].
  apply poll_Ret in Hpoll as (n & Hn & Hpend & Hlast & Hterm & ->).
  rewrite after_poll_eq. cbv zeta.
  case_bool_decide as Hst; [|done].
  destruct (first_output task) as [videoUrl|] eqn:Hfirst; [|done].
  simpl. case_bool_decide as Hurl; [done|].
  rewrite fetchVideoAsBuffer_eq. unfold download_of. cbv zeta. cbn [fst].
  destruct (https_get B videoUrl) as [err|download|] eqn:Hget; [done| |done].
  case_bool_decide as Hcode; [done|].
  destruct (finish download) eqn:Hfin; [|done..].
  intros (-> & _ & _ & ->)%uploadToGCPStorage_Ret.
  exists taskId, n, task, videoUrl, download. repeat split; try done.
  simpl. f_equal; try done. by rewrite <- !app_assoc.
Qed.

(** What a voiceover stage that returned has done. *)
Lemma generateVoiceoverUsingGoogleTTS_Ret_inv B scriptUrl name w url w' :
  generateVoiceoverUsingGoogleTTS B scriptUrl name w = (Ret url, w') ->
  exists response audio,
    fetch B scriptUrl = Resolved response /\ ok response = true /\
    text response ≠ "" /\
    synthesizeSpeech B (text response) = Resolved (Some audio) /\
    url = publicUrl_of ("temp/" +:+ name) /\
    w' = {| store := <["temp/" +:+ name := stored "audio/mpeg" (Bytes audio) true]> (store w);
            trace := trace w ++ [EvFetch scriptUrl; EvSynthesizeSpeech (text response);
                                 EvSave ("temp/" +:+ name) "audio/mpeg" (Bytes audio);
                                 EvMakePublic ("temp/" +:+ name)] |}.
Proof.
  rewrite generateVoiceoverUsingGoogleTTS_eq. cbv zeta.
  destruct (fetch B scriptUrl) as [response|e]; [|done].
  destruct (ok response) eqn:Hok; [|done]. simpl.
  case_bool_decide as Htext; [done|].
  destruct (synthesizeSpeech B (text response)) as [[audio|]|e] eqn:Hsyn; [|done..].
  intros (-> & _ & _ & ->)%uploadToGCPStorage_Ret.
  exists response, audio. repeat split; try done.
  simpl. by rewrite <- app_assoc.
Qed.

(** ** A successful run *)

Lemma request_paths_distinct B :
  scriptPath_of B ≠ audioPath_of B /\ scriptPath_of B ≠ videoPath_of B /\
  audioPath_of B ≠ videoPath_of B.
Proof. repeat split; by intros [=]. Qed.

(** What a run of the handler that answered with data has done. *)
Lemma POST_success_inv fuel B sp ph w r w' d :
  sp ≠ "" -> ph ≠ "" ->
  POST fuel B (Resolved (request_body sp ph)) w = (Some r, w') ->
  data_of r = Some d ->
  exists script response audio taskId n task videoUrl download,
    generateContent B (prompt_of sp) = Resolved (Some script) /\ script ≠ "" /\
    scriptURL d = publicUrl_of (scriptPath_of B) /\
    fetch B (scriptURL d) = Resolved response /\ ok response = true /\
    text response ≠ "" /\
    synthesizeSpeech B (text response) = Resolved (Some audio) /\
    imageToVideo_create B ph = Resolved taskId /\
    (n <= fuel)%nat /\ pending_for B taskId 0 n /\
    tasks_retrieve B taskId n = Resolved task /\ status task = "SUCCEEDED" /\
    first_output task = Some videoUrl /\
    https_get B videoUrl = Responded download /\
    statusCode download = 200 /\ finish download = OnEnd /\
    let video := Bytes (concat (chunks download)) in
    w' = {| store :=
              <[videoPath_of B := stored "video/mp4" video true]>
                (<[audioPath_of B := stored "audio/mpeg" (Bytes audio) true]>
                   (<[scriptPath_of B := stored "text/plain" (Text script) true]> (store w)));
            trace := trace w ++
              [EvGenerateContent (prompt_of sp);
               EvSave (scriptPath_of B) "text/plain" (Text script);
               EvMakePublic (scriptPath_of B);
               EvFetch (scriptURL d);
               EvSynthesizeSpeech (text response);
               EvSave (audioPath_of B) "audio/mpeg" (Bytes audio);
               EvMakePublic (audioPath_of B);
               EvImageToVideo ph] ++
              poll_events taskId (S n) ++
              [EvHttpsGet videoUrl;
               EvSave (videoPath_of B) "video/mp4" video;
               EvMakePublic (videoPath_of B)] |}.
Proof.
  intros Hsp Hph Hpost Hdata. rewrite POST_eq in Hpost by done.
  destruct (generateVideoScriptUsingGemini _ _ _ _) as [[url|e|] w1] eqn:Hscript;
    [|by injection Hpost as <- <-|done].
  destruct (generateVoiceoverUsingGoogleTTS _ _ _ _) as [[url'|e|] w2] eqn:Hvoice;
    [|by injection Hpost as <- <-|done].
  destruct (generateVideoFromRunwayML _ _ _ _ _ _) as [[url''|e|] w3] eqn:Hvideo;
    [|by injection Hpost as <- <-|done].
  injection Hpost as <- <-. rewrite data_of_success_answer in Hdata.
  injection Hdata as <-.
  apply generateVideoScriptUsingGemini_Ret in Hscript
    as (script & Hgen & Hne & -> & _ & _ & ->).
  apply generateVoiceoverUsingGoogleTTS_Ret_inv in Hvoice
    as (response & audio & Hfetch & Hok & Htext & Hsyn & -> & ->).
  apply generateVideoFromRunwayML_Ret_inv in Hvideo
    as (taskId & n & task & videoUrl & download & Hcreate & Hn & Hpend & Hlast & Hst
        & Hfirst & _ & Hget & Hcode & Hfin & -> & ->).
  exists script, response, audio, taskId, n, task, videoUrl, download.
  repeat (split; [done|]). cbv zeta. cbn [store trace scriptURL]. f_equal.
  by rewrite <- !app_assoc.
Qed.

(** X7.  After a run that answered with data the bucket holds the three
    artifacts of the request, all public: the script Gemini generated as
    text/plain, the audio synthesized from the text fetched at the script
    URL as audio/mpeg, and the concatenated chunks downloaded from the first
    output of the SUCCEEDED task as video/mp4. *)
Theorem successful_run_stores_three_artifacts fuel B sp ph w r w' d :
  sp ≠ "" -> ph ≠ "" ->
  POST fuel B (Resolved (request_body sp ph)) w = (Some r, w') ->
  data_of r = Some d ->
  exists script response audio taskId n task videoUrl download,
    generateContent B (prompt_of sp) = Resolved (Some script) /\
    fetch B (scriptURL d) = Resolved response /\
    synthesizeSpeech B (text response) = Resolved (Some audio) /\
    imageToVideo_create B ph = Resolved taskId /\
    tasks_retrieve B taskId n = Resolved task /\ status task = "SUCCEEDED" /\
    first_output task = Some videoUrl /\
    https_get B videoUrl = Responded download /\
    store w' !! scriptPath_of B = Some (stored "text/plain" (Text script) true) /\
    store w' !! audioPath_of B = Some (stored "audio/mpeg" (Bytes audio) true) /\
    store w' !! videoPath_of B =
      Some (stored "video/mp4" (Bytes (concat (chunks download))) true).
Proof.
  intros Hsp Hph Hpost Hdata.
  destruct (POST_success_inv _ _ _ _ _ _ _ _ Hsp Hph Hpost Hdata)
    as (script & response & audio & taskId & n & task & videoUrl & download & Hgen & _ & _
        & Hfetch & _ & _ & Hsyn & Hcreate & _ & _ & Hlast & Hst & Hfirst & Hget & _ & _ & Hw).
  cbv zeta in Hw. subst w'.
  destruct (request_paths_distinct B) as (Hsa & Hsv & Hav).
  exists script, response, audio, taskId, n, task, videoUrl, download.
  repeat (split; [done|]). cbn [store]. split; [|split].
  - by rewrite lookup_insert_ne, lookup_insert_ne, lookup_insert_eq.
  - by rewrite lookup_insert_ne, lookup_insert_eq.
  - by rewrite lookup_insert_eq.
Qed.

Lemma successful_run_stores_three_artifacts_witness :
  exists w',
    snd (POST 2 cricket (Resolved cricket_body) w0) = w' /\
    store w' !! scriptPath_of cricket
    = Some (stored "text/plain" (Text "Cricket began in southern England") true).
Proof.
  assert (Hsp : "cricket" ≠ "") by discriminate.
  assert (Hph : "data:image/jpeg;base64,/9j/4AAQ" ≠ "") by discriminate.
  destruct (successful_run_stores_three_artifacts 2 cricket
              "cricket" "data:image/jpeg;base64,/9j/4AAQ" w0 _ _ _
              Hsp Hph ltac:(vm_compute; reflexivity) eq_refl)
    as (script & response & audio & taskId & n & task & videoUrl & download & Hgen & _ & _
        & _ & _ & _ & _ & _ & Hscript & _ & _).
  eexists. split; [vm_compute; reflexivity|].
  injection Hgen as <-. exact Hscript.
Defined.

(** X8.  A run that answers with data makes its calls in one order: the
    generation of the script and its upload, the fetch of the script URL it
    answers with, the synthesis and the upload of the audio, the creation of
    the video job, the rounds of the loop, the download of the output and
    the upload of the video; twelve calls besides the loop, none of them
    twice. *)
Theorem successful_run_trace fuel B sp ph w r w' d :
  sp ≠ "" -> ph ≠ "" ->
  POST fuel B (Resolved (request_body sp ph)) w = (Some r, w') ->
  data_of r = Some d ->
  exists script input audio taskId n videoUrl video,
    (n <= fuel)%nat /\
    emitted w w' =
      [EvGenerateContent (prompt_of sp);
       EvSave (scriptPath_of B) "text/plain" (Text script);
       EvMakePublic (scriptPath_of B);
       EvFetch (scriptURL d);
       EvSynthesizeSpeech input;
       EvSave (audioPath_of B) "audio/mpeg" (Bytes audio);
       EvMakePublic (audioPath_of B);
       EvImageToVideo ph] ++
      poll_events taskId (S n) ++
      [EvHttpsGet videoUrl;
       EvSave (videoPath_of B) "video/mp4" (Bytes video);
       EvMakePublic (videoPath_of B)].
Proof.
  intros Hsp Hph Hpost Hdata.
  destruct (POST_success_inv _ _ _ _ _ _ _ _ Hsp Hph Hpost Hdata)
    as (script & response & audio & taskId & n & task & videoUrl & download & _ & _ & _ & _
        & _ & _ & _ & _ & Hn & _ & _ & _ & _ & _ & _ & _ & Hw).
  cbv zeta in Hw. subst w'.
  exists script, (text response), audio, taskId, n, videoUrl,
    (concat (chunks download)).
  split; [done|]. by apply emitted_app.
Qed.

Lemma successful_run_trace_witness :
  exists script input audio taskId n videoUrl video,
    emitted w0 (snd (POST 2 cricket (Resolved cricket_body) w0)) =
      [EvGenerateContent (prompt_of "cricket");
       EvSave (scriptPath_of cricket) "text/plain" (Text script);
       EvMakePublic (scriptPath_of cricket);
       EvFetch "https://storage.googleapis.com/sehban/temp/script-1700000000000.txt";
       EvSynthesizeSpeech input;
       EvSave (audioPath_of cricket) "audio/mpeg" (Bytes audio);
       EvMakePublic (audioPath_of cricket);
       EvImageToVideo "data:image/jpeg;base64,/9j/4AAQ"] ++
      poll_events taskId (S n) ++
      [EvHttpsGet videoUrl;
       EvSave (videoPath_of cricket) "video/mp4" (Bytes video);
       EvMakePublic (videoPath_of cricket)].
Proof.
  assert (Hsp : "cricket" ≠ "") by discriminate.
  assert (Hph : "data:image/jpeg;base64,/9j/4AAQ" ≠ "") by discriminate.
  destruct (successful_run_trace 2 cricket
              "cricket" "data:image/jpeg;base64,/9j/4AAQ" w0 _ _ _
              Hsp Hph ltac:(vm_compute; reflexivity) eq_refl)
    as (script & input & audio & taskId & n & videoUrl & video & _ & Htrace).
  exists script, input, audio, taskId, n, videoUrl, video. exact Htrace.
Defined.

(** ** What a request leaves alone *)

Lemma uploadToGCPStorage_frame B fileName fileType fileContent cat w p :
  p ≠ directory_of cat +:+ "/" +:+ fileName ->
  store (snd (uploadToGCPStorage B fileName fileType fileContent cat w)) !! p
  = store w !! p.
Proof.
  intros Hp. rewrite uploadToGCPStorage_eq. cbv zeta.
  repeat case_match; simpl; try done; by rewrite lookup_insert_ne.
Qed.

Lemma generateVideoScriptUsingGemini_frame B sp name w p :
  p ≠ "temp/" +:+ name ->
  store (snd (generateVideoScriptUsingGemini B sp name w)) !! p = store w !! p.
Proof.
  intros Hp. rewrite generateVideoScriptUsingGemini_eq. cbv zeta.
  destruct (generateContent B _) as [script|e]; [destruct (falsy script)|]; try done.
  by rewrite uploadToGCPStorage_frame.
Qed.

Lemma generateVoiceoverUsingGoogleTTS_frame B scriptUrl name w p :
  p ≠ "temp/" +:+ name ->
  store (snd (generateVoiceoverUsingGoogleTTS B scriptUrl name w)) !! p = store w !! p.
Proof.
  intros Hp. rewrite generateVoiceoverUsingGoogleTTS_eq. cbv zeta.
  repeat case_match; try done. by rewrite uploadToGCPStorage_frame.
Qed.

Lemma generateVideoFromRunwayML_frame fuel B sp ph name w p :
  p ≠ "temp/" +:+ name ->
  store (snd (generateVideoFromRunwayML fuel B sp ph name w)) !! p = store w !! p.
Proof.
  intros Hp. rewrite generateVideoFromRunwayML_eq.
  destruct (imageToVideo_create B ph) as [taskId|e]; [|done].
  destruct (poll_shape fuel B taskId 0 (log w [EvImageToVideo ph])) as (n & _ & Hw & _).
  destruct (poll fuel B taskId 0 _) as [[task|e|] w1]; simpl in Hw; subst w1; [|done..].
  rewrite after_poll_eq. cbv zeta.
  repeat case_match; try done. by rewrite uploadToGCPStorage_frame.
Qed.

Lemma after_guard_frame fuel B sp ph w p :
  p ∉ request_paths B ->
  store (snd (after_guard fuel B sp ph w)) !! p = store w !! p.
Proof.
  intros Hp. unfold request_paths in Hp.
  apply not_elem_of_cons in Hp as [Hs Hp].
  apply not_elem_of_cons in Hp as [Ha Hp].
  apply not_elem_of_cons in Hp as [Hv _].
  rewrite after_guard_eq.
  pose proof (generateVideoScriptUsingGemini_frame B sp (tempScriptName_of B) w p Hs) as H1.
  destruct (generateVideoScriptUsingGemini _ _ _ _) as [[url|e|] w1]; simpl in *; try done.
  pose proof (generateVoiceoverUsingGoogleTTS_frame B url (tempAudioName_of B) w1 p Ha) as H2.
  destruct (generateVoiceoverUsingGoogleTTS _ _ _ _) as [[url'|e|] w2]; simpl in *;
    try (by rewrite H2).
  pose proof (generateVideoFromRunwayML_frame fuel B sp ph (tempVideoName_of B) w2 p Hv) as H3.
  destruct (generateVideoFromRunwayML _ _ _ _ _ _) as [[url''|e|] w3]; simpl in *;
    by rewrite H3, H2.
Qed.

Lemma POST_frame fuel B request_json w p :
  p ∉ request_paths B ->
  store (snd (POST fuel B request_json w)) !! p = store w !! p.
Proof.
  intros Hp. rewrite POST_unfold.
  destruct request_json as [body|e]; [|done].
  destruct (is_null body); [done|].
  destruct (falsy_value _ || falsy_value _); [done|].
  by apply after_guard_frame.
Qed.

(** X9.  Whatever the request and however it ends, the handler changes the
    bucket at no other path than temp/script-{id}.txt, temp/audio-{id}.mp3
    and temp/video-{id}.mp4 of its own id. *)
Theorem POST_touches_only_its_three_paths fuel B request_json w :
  only_touches (request_paths B) w (snd (POST fuel B request_json w)).
Proof. intros p Hp. by apply POST_frame. Qed.

Lemma paths_of_other_id B1 B2 p :
  Date_now B1 ≠ Date_now B2 -> p ∈ request_paths B1 -> p ∉ request_paths B2.
Proof.
  intros Hnow Hp1 Hp2.
  assert (Hid : randomId_of B1 ≠ randomId_of B2) by (by rewrite randomId_of_inj).
  unfold request_paths in *.
  repeat (apply elem_of_cons in Hp1 as [Hp1|Hp1]); [| | |by apply elem_of_nil in Hp1];
    subst p;
    (repeat (apply elem_of_cons in Hp2 as [Hp2|Hp2]); [| | |by apply elem_of_nil in Hp2]);
    try (by injection Hp2);
    apply Hid;
    unfold scriptPath_of, audioPath_of, videoPath_of,
      tempScriptName_of, tempAudioName_of, tempVideoName_of in Hp2;
    repeat apply (inj (String.app _)) in Hp2;
    by eapply string_app_inj_r.
Qed.

(** X10.  Requests with different clock readings do not interfere: the
    handler leaves the three objects of any request with another id exactly
    as they were. *)
Theorem later_request_keeps_earlier_artifacts fuel B1 B2 request_json w p :
  Date_now B1 ≠ Date_now B2 ->
  p ∈ request_paths B1 ->
  store (snd (POST fuel B2 request_json w)) !! p = store w !! p.
Proof.
  intros Hnow Hp. apply POST_frame. by eapply paths_of_other_id.
Qed.

Lemma later_request_keeps_earlier_artifacts_witness :
  store (snd (POST 2 hockey (Resolved hockey_body)
                (snd (POST 2 cricket (Resolved cricket_body) w0))))
    !! scriptPath_of cricket
  = store (snd (POST 2 cricket (Resolved cricket_body) w0)) !! scriptPath_of cricket.
Proof.
  apply (later_request_keeps_earlier_artifacts 2 cricket hockey).
  - discriminate.
  - apply elem_of_cons. left. reflexivity.
Defined.

(** ** The calls of a run *)

Lemma calls_within_app g1 f1 s1 c1 h1 v1 g2 f2 s2 c2 h2 v2 evs1 evs2 :
  calls_within g1 f1 s1 c1 h1 v1 evs1 ->
  calls_within g2 f2 s2 c2 h2 v2 evs2 ->
  calls_within (g1 + g2) (f1 + f2) (s1 + s2) (c1 + c2) (h1 + h2) (v1 + v2) (evs1 ++ evs2).
Proof.
  unfold calls_within. rewrite !count_events_app. lia.
Qed.

Lemma count_events_poll_events_quiet (p : Event -> bool) taskId n :
  p (EvSetTimeout 10000) = false -> p (EvTasksRetrieve taskId) = false ->
  count_events p (poll_events taskId n) = O.
Proof. intros Hs Hr. induction n as [|n IH]; simpl; [done|]. by rewrite Hs, Hr, IH. Qed.

(** Closes the goals on an explicit list of calls of one stage. *)
Ltac stage_calls :=
  unfold calls_of_stage;
  repeat first [apply Forall_nil_2 | apply Forall_cons_2; [simpl; auto|]].

Ltac explicit_calls :=
  eexists; split; [simpl; rewrite <- ?app_assoc; reflexivity|];
  split; [unfold calls_within; simpl; lia | stage_calls].

Lemma uploadToGCPStorage_calls_within B fileName fileType fileContent cat w st :
  exists evs,
    trace (snd (uploadToGCPStorage B fileName fileType fileContent cat w)) = trace w ++ evs /\
    calls_within 0 0 0 0 0 1 evs /\ calls_of_stage st evs.
Proof.
  rewrite uploadToGCPStorage_eq. cbv zeta. repeat case_match; explicit_calls.
Qed.

Lemma generateVideoScriptUsingGemini_calls_within B sp name w :
  exists evs,
    trace (snd (generateVideoScriptUsingGemini B sp name w)) = trace w ++ evs /\
    calls_within 1 0 0 0 0 1 evs /\ calls_of_stage ScriptStage evs /\
    exists rest, evs = EvGenerateContent (prompt_of sp) :: rest.
Proof.
  rewrite generateVideoScriptUsingGemini_eq. cbv zeta.
  destruct (generateContent B _) as [script|e]; [destruct (falsy script)|];
    try (eexists; split; [simpl; reflexivity|];
         split; [unfold calls_within; simpl; lia|];
         split; [stage_calls | by eexists]).
  destruct (uploadToGCPStorage_calls_within B name "text/plain" (Text (default "" script)) Temp
              (log w [EvGenerateContent (prompt_of sp)]) ScriptStage) as (evs & -> & Hin & Hst).
  exists (EvGenerateContent (prompt_of sp) :: evs).
  split; [simpl; by rewrite <- app_assoc|].
  split; [apply (calls_within_app 1 0 0 0 0 0 0 0 0 0 0 1 [_] evs);
          [unfold calls_within; simpl; lia | done]|].
  split; [constructor; auto | by eexists].
Qed.

Lemma generateVoiceoverUsingGoogleTTS_calls_within B scriptUrl name w :
  exists evs,
    trace (snd (generateVoiceoverUsingGoogleTTS B scriptUrl name w)) = trace w ++ evs /\
    calls_within 0 1 1 0 0 1 evs /\ calls_of_stage VoiceoverStage evs.
Proof.
  rewrite generateVoiceoverUsingGoogleTTS_eq. cbv zeta.
  destruct (fetch B scriptUrl) as [response|e];
    [destruct (negb (ok response)); [|destruct (falsy (Some (text response)));
       [|destruct (synthesizeSpeech B (text response)) as [[audio|]|e]]]|];
    try explicit_calls.
  destruct (uploadToGCPStorage_calls_within B name "audio/mpeg" (Bytes audio) Temp
              (log w [EvFetch scriptUrl; EvSynthesizeSpeech (text response)]) VoiceoverStage)
    as (evs & -> & Hin & Hst).
  exists ([EvFetch scriptUrl; EvSynthesizeSpeech (text response)] ++ evs).
  split; [simpl; by rewrite <- app_assoc|]. split.
  - apply (calls_within_app 0 1 1 0 0 0 0 0 0 0 0 1 [_; _] evs);
      [unfold calls_within; simpl; lia | done].
  - apply Forall_app. split; [stage_calls | done].
Qed.

Lemma generateVideoFromRunwayML_calls_within fuel B sp ph name w :
  exists evs,
    trace (snd (generateVideoFromRunwayML fuel B sp ph name w)) = trace w ++ evs /\
    calls_within 0 0 0 1 1 1 evs /\ calls_of_stage VideoStage evs.
Proof.
  assert (Hhead : forall taskId n,
    calls_within 0 0 0 1 0 0 (EvImageToVideo ph :: poll_events taskId n) /\
    calls_of_stage VideoStage (EvImageToVideo ph :: poll_events taskId n)).
  { intros taskId n. split.
    - unfold calls_within. simpl.
      rewrite !count_events_poll_events_quiet by done. lia.
    - constructor; [auto|]. apply Forall_poll_events; auto. }
  rewrite generateVideoFromRunwayML_eq.
  destruct (imageToVideo_create B ph) as [taskId|e]; [|explicit_calls].
  destruct (poll_shape fuel B taskId 0 (log w [EvImageToVideo ph])) as (n & _ & Hw & _).
  rewrite log_log in Hw. simpl in Hw. destruct (Hhead taskId n) as [Hin Hst].
  assert (Hstop : forall o : Outcome string, exists evs,
    trace (snd (o, log w (EvImageToVideo ph :: poll_events taskId n))) = trace w ++ evs /\
    calls_within 0 0 0 1 1 1 evs /\ calls_of_stage VideoStage evs).
  { intros o. eexists. split; [reflexivity|]. split; [|done].
    unfold calls_within in *. lia. }
  assert (Hmore : forall (o : Outcome string) tail,
    calls_within 0 0 0 0 1 1 tail -> calls_of_stage VideoStage tail ->
    exists evs,
      trace (snd (o, log (log w (EvImageToVideo ph :: poll_events taskId n)) tail))
      = trace w ++ evs /\
      calls_within 0 0 0 1 1 1 evs /\ calls_of_stage VideoStage evs).
  { intros o tail Htin Htst.
    exists ((EvImageToVideo ph :: poll_events taskId n) ++ tail).
    split; [simpl; by rewrite <- app_assoc|]. split.
    - by apply (calls_within_app 0 0 0 1 0 0 0 0 0 0 1 1).
    - by apply Forall_app. }
  destruct (poll fuel B taskId 0 _) as [[task|e|] w1]; simpl in Hw; subst w1;
    [|apply Hstop..].
  rewrite after_poll_eq. cbv zeta.
  case_bool_decide; [|apply Hstop].
  destruct (falsy (first_output task)); [apply Hstop|].
  assert (Hget : forall u,
    calls_within 0 0 0 0 1 0 [EvHttpsGet u] /\ calls_of_stage VideoStage [EvHttpsGet u]).
  { intros u. split; [unfold calls_within; simpl; lia | stage_calls]. }
  destruct (Hget (default "" (first_output task))) as [Hgin Hgst].
  destruct (fst (fetchVideoAsBuffer _ _ _)) as [videoBuffer|e|].
  - destruct (uploadToGCPStorage_calls_within B name "video/mp4" (Bytes videoBuffer) Temp
                (log (log w (EvImageToVideo ph :: poll_events taskId n))
                   [EvHttpsGet (default "" (first_output task))]) VideoStage)
      as (ups & Htr & Huin & Hust).
    exists ((EvImageToVideo ph :: poll_events taskId n) ++
            [EvHttpsGet (default "" (first_output task))] ++ ups).
    split; [rewrite Htr; simpl; by rewrite <- !app_assoc|]. split.
    + apply (calls_within_app 0 0 0 1 0 0 0 0 0 0 1 1); [done|].
      by apply (calls_within_app 0 0 0 0 1 0 0 0 0 0 0 1).
    + apply Forall_app. split; [done|]. by apply Forall_app.
  - apply Hmore; [unfold calls_within in *; lia | done].
  - apply Hmore; [unfold calls_within in *; lia | done].
Qed.

Lemma calls_within_weaken g f s c h v g' f' s' c' h' v' evs :
  calls_within g f s c h v evs ->
  (g <= g')%nat -> (f <= f')%nat -> (s <= s')%nat ->
  (c <= c')%nat -> (h <= h')%nat -> (v <= v')%nat ->
  calls_within g' f' s' c' h' v' evs.
Proof. unfold calls_within. lia. Qed.

(** The calls of a run of the handler on a body with both fields: those of
    the script stage, then those of the voiceover stage if the script stage
    returned, then those of the video stage if the voiceover stage
    returned. *)
Lemma after_guard_calls fuel B sp ph w :
  exists evs1 evs2 evs3,
    trace (snd (after_guard fuel B sp ph w))
    = trace w ++ evs1 ++ evs2 ++ evs3 /\
    emitted w (snd (generateVideoScriptUsingGemini B sp (tempScriptName_of B) w)) = evs1 /\
    (exists rest, evs1 = EvGenerateContent (prompt_of sp) :: rest) /\
    calls_within 1 0 0 0 0 1 evs1 /\ calls_of_stage ScriptStage evs1 /\
    calls_within 0 1 1 0 0 1 evs2 /\ calls_of_stage VoiceoverStage evs2 /\
    calls_within 0 0 0 1 1 1 evs3 /\ calls_of_stage VideoStage evs3 /\
    ((forall url, fst (generateVideoScriptUsingGemini B sp (tempScriptName_of B) w) <> Ret url) ->
       evs2 = [] /\ evs3 = []) /\
    (forall url w1,
       generateVideoScriptUsingGemini B sp (tempScriptName_of B) w = (Ret url, w1) ->
       (forall url', fst (generateVoiceoverUsingGoogleTTS B url (tempAudioName_of B) w1)
                     <> Ret url') ->
       evs3 = []).
Proof.
  rewrite after_guard_eq.
  assert (Hnil2 : calls_within 0 1 1 0 0 1 [] /\ calls_of_stage VoiceoverStage []).
  { split; [unfold calls_within; simpl; lia | constructor]. }
  assert (Hnil3 : calls_within 0 0 0 1 1 1 [] /\ calls_of_stage VideoStage []).
  { split; [unfold calls_within; simpl; lia | constructor]. }
  destruct Hnil2 as [Hin2 Hst2]. destruct Hnil3 as [Hin3 Hst3].
  destruct (generateVideoScriptUsingGemini_calls_within B sp (tempScriptName_of B) w)
    as (evs1 & Htr1 & Hin1 & Hst1 & Hhead).
  destruct (generateVideoScriptUsingGemini _ _ _ _) as [[url|e|] w1] eqn:Hscript;
    simpl in Htr1.
  2,3: exists evs1, [], []; rewrite !app_nil_r; cbn [snd fst];
       rewrite (emitted_app _ _ _ Htr1); repeat (split; [done|]);
       first [done | by intros ? ? [=]].
  destruct (generateVoiceoverUsingGoogleTTS_calls_within B url (tempAudioName_of B) w1)
    as (evs2 & Htr2 & Hin2' & Hst2').
  destruct (generateVoiceoverUsingGoogleTTS _ _ _ _) as [[url'|e|] w2] eqn:Hvoice;
    simpl in Htr2.
  2,3: exists evs1, evs2, []; rewrite !app_nil_r; cbn [snd fst];
       rewrite (emitted_app _ _ _ Htr1); rewrite Htr2, Htr1, <- app_assoc;
       repeat (split; [done|]);
       first [done | (intros Hno; by destruct (Hno url))
             | (split; [intros Hno; by destruct (Hno url) | done])].
  destruct (generateVideoFromRunwayML_calls_within fuel B sp ph (tempVideoName_of B) w2)
    as (evs3 & Htr3 & Hin3' & Hst3').
  exists evs1, evs2, evs3. cbn [fst snd]. rewrite (emitted_app _ _ _ Htr1).
  split.
  { destruct (generateVideoFromRunwayML _ _ _ _ _ _) as [[url''|e|] w3]; simpl in *;
      by rewrite Htr3, Htr2, Htr1, <- !app_assoc. }
  repeat (split; [done|]). split.
  - intros Hno. by destruct (Hno url).
  - intros url0 w0' [= <- <-] Hno. rewrite Hvoice in Hno. by destruct (Hno url').
Qed.

Lemma POST_request_body fuel B sp ph w :
  sp ≠ "" -> ph ≠ "" ->
  POST fuel B (Resolved (request_body sp ph)) w = after_guard fuel B sp ph w.
Proof. intros Hsp Hph. by rewrite POST_eq, after_guard_eq. Qed.

Lemma POST_calls fuel B sp ph w :
  sp ≠ "" -> ph ≠ "" ->
  exists evs1 evs2 evs3,
    trace (snd (POST fuel B (Resolved (request_body sp ph)) w))
    = trace w ++ evs1 ++ evs2 ++ evs3 /\
    emitted w (snd (generateVideoScriptUsingGemini B sp (tempScriptName_of B) w)) = evs1 /\
    (exists rest, evs1 = EvGenerateContent (prompt_of sp) :: rest) /\
    calls_within 1 0 0 0 0 1 evs1 /\ calls_of_stage ScriptStage evs1 /\
    calls_within 0 1 1 0 0 1 evs2 /\ calls_of_stage VoiceoverStage evs2 /\
    calls_within 0 0 0 1 1 1 evs3 /\ calls_of_stage VideoStage evs3 /\
    ((forall url, fst (generateVideoScriptUsingGemini B sp (tempScriptName_of B) w) <> Ret url) ->
       evs2 = [] /\ evs3 = []) /\
    (forall url w1,
       generateVideoScriptUsingGemini B sp (tempScriptName_of B) w = (Ret url, w1) ->
       (forall url', fst (generateVoiceoverUsingGoogleTTS B url (tempAudioName_of B) w1)
                     <> Ret url') ->
       evs3 = []).
Proof.
  intros Hsp Hph. rewrite POST_request_body by done. apply after_guard_calls.
Qed.

(** X11.  A stage that does not return ends the calls of the run.  When the
    script stage throws, the calls of the run are those of the script stage:
    the generation and at most the two storage calls.  When the voiceover
    stage throws, no call of the video stage is made: no job is created, no
    timer set, no status queried, no output downloaded. *)
Theorem failed_stage_stops_the_pipeline fuel B sp ph w :
  sp ≠ "" -> ph ≠ "" ->
  let evs := emitted w (snd (POST fuel B (Resolved (request_body sp ph)) w)) in
  (forall e w1,
     generateVideoScriptUsingGemini B sp (tempScriptName_of B) w = (Throw e, w1) ->
     evs = emitted w w1 /\ calls_of_stage ScriptStage evs /\
     (count_events is_save evs <= 1)%nat) /\
  (forall url w1 e w2,
     generateVideoScriptUsingGemini B sp (tempScriptName_of B) w = (Ret url, w1) ->
     generateVoiceoverUsingGoogleTTS B url (tempAudioName_of B) w1 = (Throw e, w2) ->
     evs = emitted w w2 /\
     Forall (fun ev => stage_of ev <> VideoStage) evs /\
     count_events is_create evs = O).
Proof.
  intros Hsp Hph evs. subst evs.
  destruct (POST_calls fuel B sp ph w Hsp Hph)
    as (evs1 & evs2 & evs3 & Htr & Hem1 & _ & Hin1 & Hst1 & Hin2 & Hst2 & _ & _ & Hno1 & Hno2).
  rewrite (emitted_app _ _ _ Htr). split.
  - intros e w1 Hscript. rewrite Hscript in Hem1, Hno1. simpl in Hem1.
    destruct Hno1 as [-> ->]; [by intros url [=]|]. rewrite !app_nil_r.
    split; [done|]. split; [done|]. unfold calls_within in Hin1. lia.
  - intros url w1 e w2 Hscript Hvoice.
    assert (evs3 = []) as ->.
    { apply (Hno2 url w1 Hscript). rewrite Hvoice. by intros url' [=]. }
    rewrite POST_eq, Hscript, Hvoice in Htr by done. simpl in Htr.
    rewrite (emitted_app _ _ _ Htr), app_nil_r. split; [done|]. split.
    + apply Forall_app. split.
      * eapply Forall_impl; [exact Hst1|]. intros ev [->| ->]; done.
      * eapply Forall_impl; [exact Hst2|]. intros ev [->| ->]; done.
    + rewrite count_events_app. unfold calls_within in *. lia.
Qed.

Lemma failed_stage_stops_the_pipeline_witness :
  emitted w0 (snd (POST 2 script_not_found (Resolved cricket_body) w0))
  = emitted w0 (snd (generateVoiceoverUsingGoogleTTS script_not_found
                       "https://storage.googleapis.com/sehban/temp/script-1700000000000.txt"
                       (tempAudioName_of script_not_found)
                       (snd (generateVideoScriptUsingGemini script_not_found "cricket"
                               (tempScriptName_of script_not_found) w0)))).
Proof.
  assert (Hsp : "cricket" ≠ "") by discriminate.
  assert (Hph : "data:image/jpeg;base64,/9j/4AAQ" ≠ "") by discriminate.
  destruct (failed_stage_stops_the_pipeline 2 script_not_found
              "cricket" "data:image/jpeg;base64,/9j/4AAQ" w0 Hsp Hph) as [_ Hvoice].
  destruct (Hvoice _ _ _ _ ltac:(vm_compute; reflexivity) ltac:(vm_compute; reflexivity))
    as [Heq _].
  exact Heq.
Defined.

(** A request that does not pass the guard leaves the world as it is. *)
Lemma POST_quiet fuel B request_json w :
  passes_guard request_json = false ->
  snd (POST fuel B request_json w) = w.
Proof.
  rewrite POST_unfold. destruct request_json as [body|e]; [|done].
  unfold passes_guard. destruct (is_null body); [done|]. cbn [orb].
  by destruct (falsy_value _ || falsy_value _).
Qed.

(** A request that passes the guard goes through the stages, on the texts
    of its two members. *)
Lemma POST_passes fuel B request_json w :
  passes_guard request_json = true ->
  exists body,
    request_json = Resolved body /\ is_null body = false /\
    falsy_value (member "sports" body) = false /\
    falsy_value (member "photo" body) = false /\
    POST fuel B request_json w =
      after_guard fuel B (template (member "sports" body)) (template (member "photo" body)) w.
Proof.
  rewrite POST_unfold. unfold passes_guard.
  destruct request_json as [body|e]; [|done].
  destruct (is_null body) eqn:Hnull; [done|]. cbn [orb].
  destruct (falsy_value _ || falsy_value _) eqn:Hfalsy; [done|].
  apply orb_false_iff in Hfalsy as [Hs Hp]. intros _. exists body.
  by rewrite Hnull.
Qed.

(** X12.  No call is repeated within a run: whatever the request and the
    answers of the backends, the handler generates a script at most once,
    fetches it at most once, synthesizes at most once, creates at most one
    video job, downloads at most one output and saves at most three
    objects. *)
Theorem no_call_is_repeated fuel B request_json w :
  let evs := emitted w (snd (POST fuel B request_json w)) in
  (count_events is_generate evs <= 1)%nat /\
  (count_events is_fetch evs <= 1)%nat /\
  (count_events is_synthesize evs <= 1)%nat /\
  (count_events is_create evs <= 1)%nat /\
  (count_events is_https_get evs <= 1)%nat /\
  (count_events is_save evs <= 3)%nat.
Proof.
  intros evs. subst evs.
  assert (Hquiet : forall w', w' = w ->
    (count_events is_generate (emitted w w') <= 1)%nat /\
    (count_events is_fetch (emitted w w') <= 1)%nat /\
    (count_events is_synthesize (emitted w w') <= 1)%nat /\
    (count_events is_create (emitted w w') <= 1)%nat /\
    (count_events is_https_get (emitted w w') <= 1)%nat /\
    (count_events is_save (emitted w w') <= 3)%nat).
  { intros w' ->. rewrite (emitted_app w w []) by (by rewrite app_nil_r). simpl. lia. }
  destruct (passes_guard request_json) eqn:Hguard; [|by apply Hquiet, POST_quiet].
  destruct (POST_passes fuel B request_json w Hguard) as (body & _ & _ & _ & _ & ->).
  destruct (after_guard_calls fuel B (template (member "sports" body))
              (template (member "photo" body)) w)
    as (evs1 & evs2 & evs3 & Htr & _ & _ & Hin1 & _ & Hin2 & _ & Hin3 & _).
  rewrite (emitted_app _ _ _ Htr).
  pose proof (calls_within_app _ _ _ _ _ _ _ _ _ _ _ _ _ _ Hin1
                (calls_within_app _ _ _ _ _ _ _ _ _ _ _ _ _ _ Hin2 Hin3)) as Hall.
  unfold calls_within in Hall. simpl in Hall. done.
Qed.

(** X13.  The handler calls a backend only for a body that parses, is not
    null and has a truthy [sports] and a truthy [photo], and its first call
    is then the generation of the script with the prompt for the text a
    template literal prints for [sports].  The two members need not be
    strings: for a body whose members are empty arrays that text is empty.
    A body that cannot be parsed, the null body and a body with a falsy
    member cause no call at all. *)
Theorem calls_imply_valid_params fuel B request_json w :
  emitted w (snd (POST fuel B request_json w)) ≠ [] ->
  exists body rest,
    request_json = Resolved body /\ is_null body = false /\
    falsy_value (member "sports" body) = false /\
    falsy_value (member "photo" body) = false /\
    emitted w (snd (POST fuel B request_json w)) =
      EvGenerateContent (prompt_of (template (member "sports" body))) :: rest.
Proof.
  intros Hcalls.
  assert (Hquiet : snd (POST fuel B request_json w) = w -> False).
  { intros Heq. rewrite Heq in Hcalls. apply Hcalls.
    apply emitted_app. by rewrite app_nil_r. }
  destruct (passes_guard request_json) eqn:Hguard;
    [|by destruct Hquiet; apply POST_quiet].
  destruct (POST_passes fuel B request_json w Hguard)
    as (body & -> & Hnull & Hs & Hp & Hpost).
  rewrite Hpost.
  destruct (after_guard_calls fuel B (template (member "sports" body))
              (template (member "photo" body)) w)
    as (evs1 & evs2 & evs3 & Htr & _ & [rest ->] & _).
  exists body, (rest ++ evs2 ++ evs3). repeat (split; [done|]).
  by rewrite (emitted_app _ _ _ Htr).
Qed.

Lemma calls_imply_valid_params_witness :
  exists rest,
    emitted w0 (snd (POST 2 cricket (Resolved empty_arrays_body) w0))
    = EvGenerateContent (prompt_of "") :: rest.
Proof.
  destruct (calls_imply_valid_params 2 cricket (Resolved empty_arrays_body) w0)
    as (body & rest & Hreq & _ & _ & _ & Hcalls).
  - vm_compute. discriminate.
  - injection Hreq as <-. exists rest. exact Hcalls.
Defined.

(** X14.  The handler sends one of three bodies: [{ error: 'issue in
    params' }] with HTTP status 400, for a body that is not null and has a
    falsy member, without touching the world; [{ status: 200, data,
    errors: {} }] with the three URLs, for a request that passed the guard;
    or [{ status: 500, data: {}, errors }].  Both envelopes are sent with
    HTTP status 200.  The [errors] of the third hold what JSON makes of the
    caught value, which for an Error object is the empty object; a body
    that cannot be parsed and the null body are answered so, without
    touching the world. *)
Theorem answers_have_three_shapes fuel B request_json w r w' :
  POST fuel B request_json w = (Some r, w') ->
  (r = params_answer /\ w' = w /\
   json r = JObject [("error", JString "issue in params")] /\ http_status r = 400 /\
   exists body, request_json = Resolved body /\ is_null body = false /\
                falsy_value (member "sports" body) || falsy_value (member "photo" body) = true) \/
  (exists url url' url'',
     r = success_answer url url' url'' /\ http_status r = 200 /\
     json r =
       JObject [("status", JNumber "200");
                ("data", JObject [("success", JBool true); ("scriptURL", JString url);
                                  ("voiceoverURL", JString url'); ("videoURL", JString url'')]);
                ("errors", JObject [])] /\
     passes_guard request_json = true) \/
  (exists e,
     r = failure_answer e /\ http_status r = 200 /\
     json r =
       JObject [("status", JNumber "500"); ("data", JObject []);
                ("errors", JObject match stringify_error e with
                                   | Some j => [("error", j)]
                                   | None => []
                                   end)] /\
     (forall message, e = Error message ->
        json r = JObject [("status", JNumber "500"); ("data", JObject []);
                          ("errors", JObject [("error", JObject [])])]) /\
     (forall e', request_json = Rejected e' -> e = e' /\ w' = w) /\
     (request_json = Resolved JNull -> e = null_body_error /\ w' = w)).
Proof.
  assert (Hfailure : forall e, w' = w \/ passes_guard request_json = true ->
    (forall e', request_json = Rejected e' -> e = e' /\ w' = w) ->
    (request_json = Resolved JNull -> e = null_body_error /\ w' = w) ->
    exists e0, failure_answer e = failure_answer e0 /\ http_status (failure_answer e) = 200 /\
      json (failure_answer e) =
        JObject [("status", JNumber "500"); ("data", JObject []);
                 ("errors", JObject match stringify_error e0 with
                                    | Some j => [("error", j)]
                                    | None => []
                                    end)] /\
      (forall message, e0 = Error message ->
         json (failure_answer e) =
           JObject [("status", JNumber "500"); ("data", JObject []);
                    ("errors", JObject [("error", JObject [])])]) /\
      (forall e', request_json = Rejected e' -> e0 = e' /\ w' = w) /\
      (request_json = Resolved JNull -> e0 = null_body_error /\ w' = w)).
  { intros e _ Hrej Hnull. exists e. do 3 (split; [done|]).
    split; [by intros message ->|]. by split. }
  rewrite POST_unfold.
  destruct request_json as [body|e0].
  2:{ intros [= <- <-]. right. right. apply Hfailure; [by left| |done].
      by intros e' [= ->]. }
  destruct (is_null body) eqn:Hnull.
  { intros [= <- <-]. right. right. apply Hfailure; [by left|done|done]. }
  assert (Hbody : Resolved body = Resolved JNull -> False).
  { intros [= ->]. done. }
  destruct (falsy_value _ || falsy_value _) eqn:Hfalsy.
  { intros [= <- <-]. left. do 4 (split; [done|]). by exists body. }
  assert (Hguard : passes_guard (Resolved body) = true).
  { unfold passes_guard. rewrite Hnull. cbn [orb]. by rewrite Hfalsy. }
  rewrite after_guard_eq.
  destruct (generateVideoScriptUsingGemini _ _ _ _) as [[url|e|] w1]; [| |done].
  2:{ intros [= <- <-]. right. right. apply Hfailure; [by right|done|]. by intros ?%Hbody. }
  destruct (generateVoiceoverUsingGoogleTTS _ _ _ _) as [[url'|e|] w2]; [| |done].
  2:{ intros [= <- <-]. right. right. apply Hfailure; [by right|done|]. by intros ?%Hbody. }
  destruct (generateVideoFromRunwayML _ _ _ _ _ _) as [[url''|e|] w3]; [| |done].
  2:{ intros [= <- <-]. right. right. apply Hfailure; [by right|done|]. by intros ?%Hbody. }
  intros [= <- <-]. right. left. by exists url, url', url''.
Qed.

Lemma answers_have_three_shapes_witness :
  exists w',
    POST 2 failing (Resolved cricket_body) w0
    = (Some {| json := JObject [("status", JNumber "500"); ("data", JObject []);
                                ("errors", JObject [("error", JObject [])])];
               http_status := 200 |}, w').
Proof.
  eexists.
  destruct (answers_have_three_shapes 2 failing (Resolved cricket_body) w0 _ _
              ltac:(vm_compute; reflexivity))
    as [(H & _)|[(url & url' & url'' & H & _)|(e & H & _)]].
  - discriminate H.
  - discriminate H.
  - vm_compute. reflexivity.
Defined.

(** ** The Create page *)

(** X15.  Without a sport, without an image, or with an image that cannot
    be read into a non-empty data URL, the page makes no request: whatever
    the route would do, the server is not reached, the shown data is kept,
    the spinner is cleared and exactly one alert is raised, naming the
    missing input or asking to try again. *)
Theorem page_makes_no_request_without_inputs toNumber api p :
  let run := Create.onhandleGenerate toNumber api p in
  let quiet (message : string) :=
    run = (Ret tt, Create.setLoading false (Create.alert message (Create.setLoading true p))) in
  (Create.selectedSport p = "" -> quiet "Please enter a Sports name.") /\
  (Create.selectedSport p ≠ "" -> Create.selectedImage p = None ->
     quiet "Please upload an image.") /\
  (Create.selectedSport p ≠ "" ->
   forall file e, Create.selectedImage p = Some file ->
     Create.convertImageToBase64 file = Rejected e -> quiet Create.try_again) /\
  (forall message, quiet message ->
     Create.server (snd run) = Create.server p /\
     Create.data (snd run) = Create.data p /\
     Create.loading (snd run) = false /\
     Create.alerts (snd run) = Create.alerts p ++ [message]).
Proof.
  intros run quiet. subst quiet run. unfold Create.onhandleGenerate, Create.generateVideo.
  cbn [Create.setLoading Create.selectedSport Create.selectedImage].
  split; [|split; [|split]].
  - intros ->. done.
  - intros Hsp ->. by rewrite (falsy_Some_false _ Hsp).
  - intros Hsp file e -> Hconv. by rewrite (falsy_Some_false _ Hsp), Hconv.
  - by intros message ->.
Qed.

Lemma page_makes_no_request_without_inputs_witness :
  Create.onhandleGenerate plain_engine (Create.serve 2 cricket) (Create.initial w0)
  = (Ret tt, Create.setLoading false
               (Create.alert "Please upload an image."
                  (Create.setLoading true (Create.initial w0)))).
Proof.
  destruct (page_makes_no_request_without_inputs plain_engine (Create.serve 2 cricket)
              (Create.initial w0))
    as (_ & Himage & _).
  apply Himage; [discriminate | reflexivity].
Defined.

(** X16.  The page posts only bodies with a non-empty sport and a non-empty
    photo: two routes that answer such bodies alike are indistinguishable
    to it.  So the parameter check of the handler never fires for a request
    of this page. *)
Theorem page_posts_only_complete_bodies toNumber api1 api2 p :
  (forall sp ph w, sp ≠ "" -> ph ≠ "" ->
     api1 (request_body sp ph) w = api2 (request_body sp ph) w) ->
  Create.onhandleGenerate toNumber api1 p = Create.onhandleGenerate toNumber api2 p.
Proof.
  intros Hsame. unfold Create.onhandleGenerate, Create.generateVideo.
  cbn [Create.setLoading Create.selectedSport Create.selectedImage Create.server].
  destruct (decide (Create.selectedSport p = "")) as [->|Hsp]; [done|].
  rewrite (falsy_Some_false _ Hsp).
  destruct (Create.selectedImage p) as [[[ph|]|]|]; try done.
  unfold Create.convertImageToBase64. cbn [falsy default].
  case_bool_decide as Hph; [done|].
  by rewrite (Hsame _ _ _ Hsp Hph).
Qed.

Lemma page_posts_only_complete_bodies_witness :
  Create.onhandleGenerate plain_engine (Create.serve 2 cricket)
    (Create.setSelectedImage (Some (Create.Loads (Some "data:image/jpeg;base64,/9j/4AAQ")))
       (Create.initial w0))
  = Create.onhandleGenerate plain_engine
      (fun body w =>
         if passes_guard (Resolved body) then Create.serve 2 cricket body w
         else (Running, w))
      (Create.setSelectedImage (Some (Create.Loads (Some "data:image/jpeg;base64,/9j/4AAQ")))
         (Create.initial w0)).
Proof.
  apply page_posts_only_complete_bodies.
  intros sp ph w Hsp Hph. unfold passes_guard.
  change (member "sports" (request_body sp ph)) with (Some (JString sp)).
  change (member "photo" (request_body sp ph)) with (Some (JString ph)).
  rewrite !falsy_value_JString.
  by rewrite (falsy_Some_false _ Hsp), (falsy_Some_false _ Hph).
Defined.

Lemma json_success_answer url url' url'' :
  json (success_answer url url' url'') =
  JObject [("status", JNumber "200");
           ("data", JObject [("success", JBool true); ("scriptURL", JString url);
                             ("voiceoverURL", JString url'); ("videoURL", JString url'')]);
           ("errors", JObject [])].
Proof. reflexivity. Qed.

(** Reads an envelope sent with HTTP status 200 the way the page does. *)
Ltac answered :=
  unfold answer_body;
  rewrite ?json_success_answer, ?json_failure_answer,
    ?data_of_success_answer, ?data_of_failure_answer;
  cbn [http_status success_answer failure_answer NextResponse_json default
       Create.ok Create.json];
  rewrite (bool_decide_eq_true_2 (200 <= 200 <= 299)) by lia;
  reflexivity.

(** X17.  The page and the handler together: with a sport and a readable
    image, the page posts them and ends as the run of the handler decides.
    While the handler has not answered the spinner stays on; when it
    answers with data the page shows exactly the three URLs of the answer
    and raises no alert; when it answers with the 500 envelope the page
    keeps what it showed and alerts "Error in generating video". *)
Theorem page_shows_what_the_run_produced toNumber fuel B p sp ph :
  Create.selectedSport p = sp -> sp ≠ "" ->
  Create.selectedImage p = Some (Create.Loads (Some ph)) -> ph ≠ "" ->
  Create.onhandleGenerate toNumber (Create.serve fuel B) p =
  let busy := Create.setLoading true p in
  match POST fuel B (Resolved (request_body sp ph)) (Create.server p) with
  | (None, w) => (Running, Create.served w busy)
  | (Some r, w) =>
      match data_of r with
      | Some d =>
          (Ret tt, Create.setLoading false
                     (Create.setData
                        {| Create.scriptURL := Some (JString (scriptURL d));
                           Create.voiceoverURL := Some (JString (voiceoverURL d));
                           Create.videoURL := Some (JString (videoURL d)) |}
                        (Create.served w busy)))
      | None =>
          (Ret tt, Create.setLoading false
                     (Create.alert "Error in generating video" (Create.served w busy)))
      end
  end.
Proof.
  intros <- Hsp Himage Hph. cbv zeta.
  unfold Create.onhandleGenerate, Create.generateVideo.
  cbn [Create.setLoading Create.selectedSport Create.selectedImage Create.server].
  rewrite (falsy_Some_false _ Hsp), Himage.
  unfold Create.convertImageToBase64. rewrite (falsy_Some_false _ Hph). cbn [default].
  unfold Create.serve. rewrite !POST_eq by done.
  destruct (generateVideoScriptUsingGemini _ _ _ _) as [[url|e|] w1];
    [|answered|done].
  destruct (generateVoiceoverUsingGoogleTTS _ _ _ _) as [[url'|e|] w2];
    [|answered|done].
  destruct (generateVideoFromRunwayML _ _ _ _ _ _) as [[url''|e|] w3];
    [answered|answered|done].
Qed.

Lemma page_shows_what_the_run_produced_witness :
  Create.data
    (snd (Create.onhandleGenerate plain_engine (Create.serve 2 cricket)
            (Create.setSelectedImage
               (Some (Create.Loads (Some "data:image/jpeg;base64,/9j/4AAQ")))
               (Create.initial w0))))
  = {| Create.scriptURL :=
         Some (JString "https://storage.googleapis.com/sehban/temp/script-1700000000000.txt");
       Create.voiceoverURL :=
         Some (JString "https://storage.googleapis.com/sehban/temp/audio-1700000000000.mp3");
       Create.videoURL :=
         Some (JString "https://storage.googleapis.com/sehban/temp/video-1700000000000.mp4") |}.
Proof.
  rewrite (page_shows_what_the_run_produced plain_engine 2 cricket _
             "cricket" "data:image/jpeg;base64,/9j/4AAQ");
    [vm_compute; reflexivity | reflexivity | discriminate | reflexivity | discriminate].
Defined.



Lemma POST_touches_only_its_three_paths_witness :
  store (snd (POST 2 cricket (Resolved cricket_body)
                (snd (POST 2 hockey (Resolved hockey_body) w0))))
    !! scriptPath_of hockey
  = store (snd (POST 2 hockey (Resolved hockey_body) w0)) !! scriptPath_of hockey.
Proof.
  apply (POST_touches_only_its_three_paths 2 cricket (Resolved cricket_body)).
  intros Hin. unfold request_paths in Hin.
  repeat (apply elem_of_cons in Hin as [Hin|Hin]; [discriminate Hin|]).
  by apply elem_of_nil in Hin.
Defined.

(** ** When a run succeeds *)



Lemma generateVoiceoverUsingGoogleTTS_Ret_storage B scriptUrl name w url w' response audio :
  generateVoiceoverUsingGoogleTTS B scriptUrl name w = (Ret url, w') ->
  fetch B scriptUrl = Resolved response ->
  synthesizeSpeech B (text response) = Resolved (Some audio) ->
  file_save B ("temp/" +:+ name) "audio/mpeg" (Bytes audio) = Resolved tt /\
  file_makePublic B ("temp/" +:+ name) = Resolved tt.
Proof.
  rewrite generateVoiceoverUsingGoogleTTS_eq. cbv zeta. intros Hret Hfetch Hsyn.
  rewrite Hfetch in Hret. destruct (negb (ok response)); [done|].
  destruct (falsy (Some (text response))); [done|]. rewrite Hsyn in Hret.
  by apply uploadToGCPStorage_Ret in Hret as (_ & Hsave & Hpub & _).
Qed.

Lemma generateVideoFromRunwayML_Ret_storage fuel B sp ph name w url w' taskId n task videoUrl
    download :
  generateVideoFromRunwayML fuel B sp ph name w = (Ret url, w') ->
  imageToVideo_create B ph = Resolved taskId ->
  (n <= fuel)%nat -> pending_for B taskId 0 n ->
  tasks_retrieve B taskId n = Resolved task ->
  status task = "SUCCEEDED" ->
  first_output task = Some videoUrl ->
  https_get B videoUrl = Responded download ->
  videoUrl ≠ "" /\
  file_save B ("temp/" +:+ name) "video/mp4"
    (Bytes (concat (chunks download))) = Resolved tt /\
  file_makePublic B ("temp/" +:+ name) = Resolved tt.
Proof.
  intros Hret Hcreate Hn Hpend Hlast Hst Hfirst Hget.
  assert (Hterm : terminal (status task) = true) by (by rewrite Hst).
  rewrite generateVideoFromRunwayML_eq, Hcreate in Hret.
  rewrite (poll_terminates n fuel B taskId 0 _ task Hpend Hlast Hterm Hn) in Hret.
  rewrite after_poll_eq, Hst, Hfirst in Hret. cbv zeta in Hret.
  rewrite fetchVideoAsBuffer_eq in Hret. cbv zeta in Hret. cbn [fst] in Hret.
  change (default "" (Some videoUrl)) with videoUrl in Hret.
  unfold download_of in Hret. rewrite Hget in Hret.
  destruct (bool_decide ("SUCCEEDED" = "SUCCEEDED")); [|done].
  simpl in Hret. case_bool_decide as Hurl; [done|].
  destruct (bool_decide (statusCode download ≠ 200)); [done|].
  destruct (finish download); [|done..].
  by apply uploadToGCPStorage_Ret in Hret as (_ & Hsave & Hpub & _).
Qed.

(** X20.  For a non-empty sport and photo the handler answers with data
    exactly when every backend answers well: Gemini with a non-empty text,
    the script URL with an ok, non-empty body, the synthesis with audio,
    RunwayML with a job that is SUCCEEDED with a non-empty first output, the
    output with status 200 and a stream that ends, and the storage service
    with an accepted write and ACL change for each of the three artifacts.
    What the bucket held before plays no part. *)
Theorem run_succeeds_iff fuel B sp ph w :
  sp ≠ "" -> ph ≠ "" ->
  (exists r w' d,
     POST fuel B (Resolved (request_body sp ph)) w = (Some r, w') /\
     data_of r = Some d) <->
  all_backends_answer fuel B sp ph.
Proof.
  intros Hsp Hph. split.
  - intros (r & w' & d & Hpost & Hdata).
    destruct (POST_success_inv _ _ _ _ _ _ _ _ Hsp Hph Hpost Hdata)
      as (script & response & audio & taskId & n & task & videoUrl & download & Hgen & Hne
          & Hurl & Hfetch & Hok & Htext & Hsyn & Hcreate & Hn & Hpend & Hlast & Hst & Hfirst
          & Hget & Hcode & Hfin & _).
    rewrite POST_eq in Hpost by done.
    destruct (generateVideoScriptUsingGemini _ _ _ _) as [[url|e|] w1] eqn:Hscript;
      [|by injection Hpost as <- <-|done].
    destruct (generateVoiceoverUsingGoogleTTS _ _ _ _) as [[url'|e|] w2] eqn:Hvoice;
      [|by injection Hpost as <- <-|done].
    destruct (generateVideoFromRunwayML _ _ _ _ _ _) as [[url''|e|] w3] eqn:Hvideo;
      [|by injection Hpost as <- <-|done].
    injection Hpost as <- <-. rewrite data_of_success_answer in Hdata.
    injection Hdata as <-. cbn [scriptURL] in *.
    pose proof Hscript as Hscript'.
    apply generateVideoScriptUsingGemini_Ret in Hscript'
      as (script' & Hgen' & _ & Hurl' & Hsave1 & Hpub1 & _).
    assert (script' = script) as -> by congruence.
    destruct (generateVoiceoverUsingGoogleTTS_Ret_storage _ _ _ _ _ _ _ _ Hvoice Hfetch Hsyn)
      as [Hsave2 Hpub2].
    destruct (generateVideoFromRunwayML_Ret_storage _ _ _ _ _ _ _ _ _ _ _ _ _
                Hvideo Hcreate Hn Hpend Hlast Hst Hfirst Hget) as (Hvurl & Hsave3 & Hpub3).
    exists script, response, audio, taskId, n, task, videoUrl, download.
    rewrite Hurl in Hfetch. repeat (split; [done|]). done.
  - intros (script & response & audio & taskId & n & task & videoUrl & download & Hgen & Hne
            & Hsave1 & Hpub1 & Hfetch & Hok & Htext & Hsyn & Hsave2 & Hpub2 & Hcreate & Hn
            & Hpend & Hlast & Hst & Hfirst & Hvurl & Hget & Hcode & Hfin & Hsave3 & Hpub3).
    assert (Hterm : terminal (status task) = true) by (by rewrite Hst).
    change (scriptPath_of B) with (directory_of Temp +:+ "/" +:+ tempScriptName_of B)
      in Hsave1, Hpub1.
    change (audioPath_of B) with (directory_of Temp +:+ "/" +:+ tempAudioName_of B)
      in Hsave2, Hpub2.
    change (videoPath_of B) with (directory_of Temp +:+ "/" +:+ tempVideoName_of B)
      in Hsave3, Hpub3.
    change (scriptPath_of B) with (directory_of Temp +:+ "/" +:+ tempScriptName_of B)
      in Hfetch.
    rewrite POST_eq by done.
    rewrite generateVideoScriptUsingGemini_eq. cbv zeta.
    rewrite Hgen, (falsy_Some_false _ Hne).
    change (default "" (Some script)) with script.
    rewrite uploadToGCPStorage_eq. cbv zeta.
    rewrite Hsave1, Hpub1.
    rewrite generateVoiceoverUsingGoogleTTS_eq. cbv zeta.
    rewrite Hfetch, Hok. cbn [negb]. rewrite (falsy_Some_false _ Htext), Hsyn.
    rewrite uploadToGCPStorage_eq. cbv zeta.
    rewrite Hsave2, Hpub2.
    rewrite generateVideoFromRunwayML_eq, Hcreate.
    rewrite (poll_terminates n fuel B taskId 0 _ task Hpend Hlast Hterm Hn).
    rewrite after_poll_eq, Hst, Hfirst. cbv zeta.
    rewrite (bool_decide_eq_true_2 ("SUCCEEDED" = "SUCCEEDED")) by done.
    rewrite (falsy_Some_false _ Hvurl).
    change (default "" (Some videoUrl)) with videoUrl.
    rewrite fetchVideoAsBuffer_eq. unfold download_of. rewrite Hget. cbn [fst].
    rewrite (bool_decide_eq_false_2 (statusCode download ≠ 200))
      by (by intros ?).
    rewrite Hfin.
    rewrite uploadToGCPStorage_eq. cbv zeta.
    rewrite Hsave3, Hpub3.
    eexists _, _, _. split; reflexivity.
Qed.

Lemma run_succeeds_iff_witness :
  all_backends_answer 2 cricket "cricket" "data:image/jpeg;base64,/9j/4AAQ".
Proof.
  apply (run_succeeds_iff 2 cricket "cricket" "data:image/jpeg;base64,/9j/4AAQ" w0);
    [discriminate | discriminate |].
  eexists _, _, _. split; [vm_compute; reflexivity | reflexivity].
Defined.
